(** * The HTTP/3 layer of mitmproxy: [mitmproxy/proxy/layers/http/_http3.py]

    A shallow embedding of [MockQuic], [LayeredH3Connection],
    [Http3Connection], [Http3Server] and [Http3Client], followed by the
    properties of the layer.

    Python generators are embedded in a small monad [Gen]: a computation
    reads and writes the layer object, appends the commands it yields, and
    ends by returning, by raising a Python exception, or by blocking in a
    call that never comes back.

    The frame codec (aioquic's [H3Connection]) and the helpers imported
    from other modules of mitmproxy are not part of the file; they are the
    fields of the records [Codec] and [Externals], and every theorem of the
    sections below holds for all of their values. *)

From Stdlib Require Import ZArith String List Bool Lia DecimalString.
From stdpp Require Import base option list gmap strings.
Import ListNotations.
Open Scope Z_scope.

(** ** Constants imported by the module *)

(** [aioquic.h3.connection.ErrorCode] and [aioquic.quic.packet.QuicErrorCode]
    (RFC 9114, section 8.1 and RFC 9000, section 20.1). *)
Definition H3_GENERAL_PROTOCOL_ERROR : Z := 0x101.
Definition H3_INTERNAL_ERROR : Z := 0x102.
Definition H3_REQUEST_CANCELLED : Z := 0x10C.
Definition NO_ERROR : Z := 0x0.
Definition APPLICATION_ERROR : Z := 0xC.

(** [mitmproxy.net.http.status_codes]. *)
Definition CLIENT_CLOSED_REQUEST : Z := 499.
Definition INTERNAL_SERVER_ERROR : Z := 500.

(** [aioquic.quic.connection.stream_is_client_initiated] and
    [stream_is_unidirectional]: the two low bits of a QUIC stream id
    (RFC 9000, section 2.1). *)
Definition stream_is_client_initiated (stream_id : Z) : bool :=
  negb (Z.testbit stream_id 0).
Definition stream_is_unidirectional (stream_id : Z) : bool :=
  Z.testbit stream_id 1.

(** ** Data *)

(** [bytes] and [str] values are both strings here. *)
Definition bytes := string.
Definition H3Headers := list (bytes * bytes).
Definition Timestamp := Z.

(** [b"%d" % code] *)
Definition bytes_of_int (n : Z) : bytes := NilZero.string_of_int (Z.to_int n).

(** [aioquic.h3.connection.HeadersState] *)
Inductive HeadersState := INITIAL | AFTER_HEADERS | AFTER_TRAILERS.

Definition HeadersState_is (a b : HeadersState) : bool :=
  match a, b with
  | INITIAL, INITIAL | AFTER_HEADERS, AFTER_HEADERS
  | AFTER_TRAILERS, AFTER_TRAILERS => true
  | _, _ => false
  end.

(** The attributes of aioquic's [H3Stream] the layer reads or writes. *)
Record H3Stream := mkH3Stream {
  ended : bool;
  headers_recv_state : HeadersState;
  headers_send_state : HeadersState;
  stream_id : Z
}.

(** A value of the codec's [_stream] dictionary.  The codec stores
    [H3Stream] objects; line 210 of the layer stores the Python boolean
    [True]. *)
Inductive PyObj :=
| StreamObj (s : H3Stream)
| BoolObj (b : bool).

(** A Python [dict] keeps insertion order, and [state_ready] iterates over
    [_stream.values()], so the table is an association list. *)
Definition StreamTable := list (Z * PyObj).

Fixpoint dict_get (d : StreamTable) (k : Z) : option PyObj :=
  match d with
  | [] => None
  | (k', v) :: d' => if Z.eqb k k' then Some v else dict_get d' k
  end.

(** [d[k] = v]: an existing key keeps its position. *)
Fixpoint dict_set (d : StreamTable) (k : Z) (v : PyObj) : StreamTable :=
  match d with
  | [] => [(k, v)]
  | (k', v') :: d' =>
      if Z.eqb k k' then (k, v) :: d' else (k', v') :: dict_set d' k v
  end.

Definition dict_values (d : StreamTable) : list PyObj := map snd d.

(** [aioquic.quic.events.ConnectionTerminated] *)
Record ConnectionTerminated := mkConnectionTerminated {
  error_code : Z;
  frame_type : option Z;
  reason_phrase : string
}.

(** [mitmproxy.http.Request] and [Response], with the fields the two
    [parse_headers] methods fill in. *)
Record Request := mkRequest {
  req_host : string;
  req_port : Z;
  req_method : bytes;
  req_scheme : bytes;
  req_authority : bytes;
  req_path : bytes;
  req_http_version : bytes;
  req_headers : H3Headers;
  req_content : option bytes;
  req_trailers : option H3Headers;
  req_timestamp_start : Timestamp;
  req_timestamp_end : option Timestamp
}.

Record Response := mkResponse {
  resp_http_version : bytes;
  resp_status_code : Z;
  resp_reason : bytes;
  resp_headers : H3Headers;
  resp_content : option bytes;
  resp_trailers : option H3Headers;
  resp_timestamp_start : Timestamp;
  resp_timestamp_end : option Timestamp
}.

(** The [HttpEvent] classes imported from the package. *)
Inductive HttpEvent :=
| RequestHeaders (stream_id : Z) (request : Request) (end_stream : bool)
| ResponseHeaders (stream_id : Z) (response : Response) (end_stream : bool)
| RequestData (stream_id : Z) (data : bytes)
| ResponseData (stream_id : Z) (data : bytes)
| RequestTrailers (stream_id : Z) (trailers : H3Headers)
| ResponseTrailers (stream_id : Z) (trailers : H3Headers)
| RequestEndOfMessage (stream_id : Z)
| ResponseEndOfMessage (stream_id : Z)
| RequestProtocolError (stream_id : Z) (message : string) (code : Z)
| ResponseProtocolError (stream_id : Z) (message : string) (code : Z).

Definition event_stream_id (e : HttpEvent) : Z :=
  match e with
  | RequestHeaders i _ _ | ResponseHeaders i _ _
  | RequestData i _ | ResponseData i _
  | RequestTrailers i _ | ResponseTrailers i _
  | RequestEndOfMessage i | ResponseEndOfMessage i
  | RequestProtocolError i _ _ | ResponseProtocolError i _ _ => i
  end.

(** [event.stream_id = i] *)
Definition set_stream_id (e : HttpEvent) (i : Z) : HttpEvent :=
  match e with
  | RequestHeaders _ r es => RequestHeaders i r es
  | ResponseHeaders _ r es => ResponseHeaders i r es
  | RequestData _ d => RequestData i d
  | ResponseData _ d => ResponseData i d
  | RequestTrailers _ t => RequestTrailers i t
  | ResponseTrailers _ t => ResponseTrailers i t
  | RequestEndOfMessage _ => RequestEndOfMessage i
  | ResponseEndOfMessage _ => ResponseEndOfMessage i
  | RequestProtocolError _ m c => RequestProtocolError i m c
  | ResponseProtocolError _ m c => ResponseProtocolError i m c
  end.

(** The commands the layer yields.  All of them are about the one
    connection the layer owns, so the connection argument is left out. *)
Inductive Command :=
| OpenQuicStream (is_unidirectional : bool)
| SendQuicStreamData (stream_id : Z) (data : bytes) (end_stream : bool)
| ResetQuicStream (stream_id : Z) (error_code : Z)
| CloseConnection
| Log (message : string) (level : string)
| ReceiveHttp (event : HttpEvent).

(** The events a layer is handed. *)
Inductive Event :=
| Start
| HttpEv (event : HttpEvent)
| QuicStreamDataReceived (stream_id : Z) (data : bytes) (end_stream : bool)
| QuicStreamReset (stream_id : Z) (error_code : Z)
| ConnectionClosed.

(** [aioquic.h3.events]: the two events the layer translates, and all the
    others (push, WebTransport, ...). *)
Inductive H3Event :=
| DataReceived (data : bytes) (stream_id : Z) (stream_ended : bool)
| HeadersReceived (headers : H3Headers) (stream_id : Z) (stream_ended : bool)
| OtherH3Event (stream_id : Z).

Definition h3_event_stream_id (e : H3Event) : Z :=
  match e with
  | DataReceived _ i _ | HeadersReceived _ i _ | OtherH3Event i => i
  end.

(** Python exceptions that occur in the module. *)
Inductive Exn :=
| AssertionError
| AttributeError
| KeyError
| H3FrameUnexpected.

Definition Exn_eqb (a b : Exn) : bool :=
  match a, b with
  | AssertionError, AssertionError | AttributeError, AttributeError
  | KeyError, KeyError | H3FrameUnexpected, H3FrameUnexpected => true
  | _, _ => false
  end.

(** How a call or a generator ends: it returns a value, an exception
    leaves it, or it sits in a call that does not come back. *)
Inductive Result (A : Type) :=
| Returned (a : A)
| Raised (e : Exn)
| Blocked.
Arguments Returned {A}.
Arguments Raised {A}.
Arguments Blocked {A}.

(** ** [MockQuic] *)

(** The connection object; [set_connection_error] and
    [get_connection_error] of [mitmproxy.proxy.layers.quic] store and read
    its QUIC close event. *)
Record Connection := mkConnection {
  quic_error : option ConnectionTerminated
}.

Definition set_connection_error (conn : Connection)
    (close_event : ConnectionTerminated) : Connection :=
  {| quic_error := Some close_event |}.

Definition get_connection_error (conn : Connection)
    : option ConnectionTerminated :=
  quic_error conn.

(** The two [queue.Queue] objects of the shim, oldest element first. *)
Record MockQuic := mkMockQuic {
  pending_commands : list Command;
  available_stream_ids : list Z
}.

(** [queue.Queue] defines neither [__bool__] nor [__len__]: as a condition,
    a queue is true whatever it holds. *)
Definition Queue_bool {A : Type} (q : list A) : bool := true.

(** [Queue.put] *)
Definition Queue_put {A : Type} (q : list A) (x : A) : list A := q ++ [x].

(** [Queue.get()]: the oldest element; on an empty queue the call blocks
    until another thread puts one, which is [None] here. *)
Definition Queue_get {A : Type} (q : list A) : option (A * list A) :=
  match q with
  | [] => None
  | x :: q' => Some (x, q')
  end.

Definition MockQuic_close (error_code : Z) (frame_type : option Z)
    (reason_phrase : string) (cq : Connection * MockQuic)
    : Connection * MockQuic :=
  let '(conn, q) := cq in
  (set_connection_error conn
     (mkConnectionTerminated error_code frame_type reason_phrase),
   {| pending_commands := Queue_put (pending_commands q) CloseConnection;
      available_stream_ids := available_stream_ids q |}).

Definition MockQuic_send_stream_data (stream_id : Z) (data : bytes)
    (end_stream : bool) (cq : Connection * MockQuic)
    : Connection * MockQuic :=
  let '(conn, q) := cq in
  (conn,
   {| pending_commands :=
        Queue_put (pending_commands q)
          (SendQuicStreamData stream_id data end_stream);
      available_stream_ids := available_stream_ids q |}).

(** [get_next_available_stream_id]: the oldest id of the pool, under the
    assertion of line 85; the call blocks on an empty pool. *)
Definition MockQuic_get_next_available_stream_id (is_unidirectional : bool)
    (q : MockQuic) : Result (Z * MockQuic) :=
  match Queue_get (available_stream_ids q) with
  | None => Blocked
  | Some (sid, rest) =>
      if Bool.eqb is_unidirectional (stream_is_unidirectional sid)
      then Returned (sid, mkMockQuic (pending_commands q) rest)
      else Raised AssertionError
  end.

(** What the codec asks of the shim during one of its methods. *)
Inductive ShimCall :=
| Call_close (error_code : Z) (frame_type : option Z) (reason_phrase : string)
| Call_send_stream_data (stream_id : Z) (data : bytes) (end_stream : bool).

Definition apply_shim_call (cq : Connection * MockQuic) (c : ShimCall)
    : Connection * MockQuic :=
  match c with
  | Call_close ec ft rp => MockQuic_close ec ft rp cq
  | Call_send_stream_data i d e => MockQuic_send_stream_data i d e cq
  end.

Definition apply_shim_calls (cq : Connection * MockQuic)
    (cs : list ShimCall) : Connection * MockQuic :=
  fold_left apply_shim_call cs cq.

(** The command a shim call leaves in the queue. *)
Definition shim_command (c : ShimCall) : Command :=
  match c with
  | Call_close _ _ _ => CloseConnection
  | Call_send_stream_data i d e => SendQuicStreamData i d e
  end.

(** The close event of the last [close] among the calls, if there is
    one. *)
Fixpoint last_close (cs : list ShimCall) : option ConnectionTerminated :=
  match cs with
  | [] => None
  | c :: cs' =>
      match last_close cs' with
      | Some ce => Some ce
      | None =>
          match c with
          | Call_close ec ft rp => Some (mkConnectionTerminated ec ft rp)
          | Call_send_stream_data _ _ _ => None
          end
      end
  end.

(** ** The codec and the imported helpers *)

(** What a method of the codec does: the shim calls it made, its new
    private state, the new stream table, and how it ended
    ([Raised H3FrameUnexpected] when it rejects a frame). *)
Record CodecReturn (S A : Type) := mkCodecReturn {
  shim_calls : list ShimCall;
  codec_state' : S;
  stream_table' : StreamTable;
  returned : Result A
}.
Arguments mkCodecReturn {S A}.
Arguments shim_calls {S A}.
Arguments codec_state' {S A}.
Arguments stream_table' {S A}.
Arguments returned {S A}.

(** aioquic's [H3Connection], as the layer uses it.  [H3_init] is the
    constructor run on the fresh shim of line 96: the shim calls it makes,
    the private state and stream table it leaves, and how it ends.  The
    pool of the fresh shim is empty, so a constructor that asks it for a
    stream id ends [Blocked]; one that reads an attribute [MockQuic] does
    not have ends [Raised AttributeError]. *)
Record Codec := mkCodec {
  cstate : Type;
  H3_init : CodecReturn cstate unit;
  H3_send_data :
    cstate -> StreamTable -> Z -> bytes -> bool -> CodecReturn cstate unit;
  H3_send_headers :
    cstate -> StreamTable -> Z -> H3Headers -> bool -> CodecReturn cstate unit;
  H3_handle_event :
    cstate -> StreamTable -> Z -> bytes -> bool ->
    CodecReturn cstate (list H3Event)
}.

(** What the module imports from the rest of mitmproxy. *)
Record Externals := mkExternals {
  (** [version.MITMPROXY.encode()] *)
  MITMPROXY : bytes;
  (** [_base.format_error] *)
  format_error : Z -> string -> bytes;
  (** [layers.quic.error_code_to_str] *)
  error_code_to_str : Z -> string;
  (** the class attribute [code] of the two protocol error classes *)
  RequestProtocolError_code : Z;
  ResponseProtocolError_code : Z;
  (** [_http2.format_h2_request_headers] and [format_h2_response_headers]:
      the commands the generator yields and the header list it returns *)
  format_h2_request_headers : Request -> list Command * H3Headers;
  format_h2_response_headers : Response -> list Command * H3Headers;
  (** [_http2.parse_h2_request_headers] and [parse_h2_response_headers]:
      the message of the [ValueError], or the parsed tuple *)
  parse_h2_request_headers :
    H3Headers ->
    string + (string * Z * bytes * bytes * bytes * bytes * H3Headers);
  parse_h2_response_headers : H3Headers -> string + (Z * H3Headers);
  (** [time.time()] *)
  time_time : Timestamp;
  (** the text of [f"{event=}"] and [f"{h3_event!r}"] *)
  repr_event : Event -> string;
  repr_h3_event : H3Event -> string
}.

(** ** The layer *)

(** The two concrete classes. *)
Inductive Role := Http3Server | Http3Client.

(** The method [_handle_event] is bound to. *)
Inductive Handler := state_start_h | state_ready_h | state_done_h.

Section Layer.

Context (X : Externals) (C : Codec).

(** [LayeredH3Connection]: the shim, and the codec's stream table and
    private state. *)
Record LayeredH3Connection := mkH3 {
  _quic : MockQuic;
  _stream : StreamTable;
  codec_state : cstate C
}.

(** An [Http3Server] or [Http3Client] object.  The two id maps exist on
    the client only; the server never reads them. *)
Record Layer := mkLayer {
  role : Role;
  _handle_event : Handler;
  conn : Connection;
  h3_conn : option LayeredH3Connection;
  _event_to_quic : gmap Z Z;
  _quic_to_event : gmap Z Z
}.

Definition set_handler (h : Handler) (st : Layer) : Layer :=
  mkLayer (role st) h (conn st) (h3_conn st)
    (_event_to_quic st) (_quic_to_event st).

Definition set_conn (c : Connection) (st : Layer) : Layer :=
  mkLayer (role st) (_handle_event st) c (h3_conn st)
    (_event_to_quic st) (_quic_to_event st).

Definition set_h3_conn (h : option LayeredH3Connection) (st : Layer) : Layer :=
  mkLayer (role st) (_handle_event st) (conn st) h
    (_event_to_quic st) (_quic_to_event st).

Definition set_id_maps (e2q q2e : gmap Z Z) (st : Layer) : Layer :=
  mkLayer (role st) (_handle_event st) (conn st) (h3_conn st) e2q q2e.

(** *** Generators *)

(** A generator run to its end from a layer state: the commands it
    yielded in order, the state it left, and how it ended. *)
Definition Outcome (A : Type) : Type := list Command * Layer * Result A.

Definition emitted {A} (o : Outcome A) : list Command := fst (fst o).
Definition final_state {A} (o : Outcome A) : Layer := snd (fst o).
Definition completion {A} (o : Outcome A) : Result A := snd o.

Definition Gen (A : Type) : Type := Layer -> Outcome A.

Definition after {A} (out : list Command) (o : Outcome A) : Outcome A :=
  let '(out', st', r) := o in (out ++ out', st', r).

Definition gret {A} (a : A) : Gen A := fun st => ([], st, Returned a).

Definition gbind {A B} (m : Gen A) (f : A -> Gen B) : Gen B :=
  fun st =>
    match m st with
    | (out, st', Returned a) => after out (f a st')
    | (out, st', Raised e) => (out, st', Raised e)
    | (out, st', Blocked) => (out, st', Blocked)
    end.

#[local] Notation "x <- m ;; k" := (gbind m (fun x => k))
  (at level 100, m at next level, right associativity).
#[local] Notation "m ;; k" := (gbind m (fun _ => k))
  (at level 100, right associativity).

Definition yield (c : Command) : Gen unit := fun st => ([c], st, Returned tt).
Definition raise {A} (e : Exn) : Gen A := fun st => ([], st, Raised e).
Definition block {A} : Gen A := fun st => ([], st, Blocked).
Definition get_state : Gen Layer := fun st => ([], st, Returned st).
Definition modify (f : Layer -> Layer) : Gen unit :=
  fun st => ([], f st, Returned tt).

Fixpoint yield_all (cs : list Command) : Gen unit :=
  match cs with
  | [] => gret tt
  | c :: cs' => yield c ;; yield_all cs'
  end.

(** [try: body / except E: handler / else: orelse].  Only [body] is
    guarded. *)
Definition try_except_else (body : Gen unit) (E : Exn)
    (handler orelse : Gen unit) : Gen unit :=
  fun st =>
    match body st with
    | (out, st', Returned _) => after out (orelse st')
    | (out, st', Raised e) =>
        if Exn_eqb e E then after out (handler st') else (out, st', Raised e)
    | (out, st', Blocked) => (out, st', Blocked)
    end.

(** Calling a generator function builds a generator object and runs
    nothing of its body; a caller that neither iterates the object nor
    delegates to it with [yield from] drops the body. *)
Definition generator_object_dropped {A} (body : Gen A) : Gen unit := gret tt.

(** [self.h3_conn], under [assert self.h3_conn is not None]. *)
Definition get_h3 : Gen LayeredH3Connection :=
  st <- get_state ;;
  match h3_conn st with
  | Some h3 => gret h3
  | None => raise AssertionError
  end.

Definition put_h3 (h3 : LayeredH3Connection) : Gen unit :=
  modify (set_h3_conn (Some h3)).

(** Attribute access on a value of the stream table. *)
Definition attr_stream {A} (f : H3Stream -> A) (o : PyObj) : Gen A :=
  match o with
  | StreamObj s => gret (f s)
  | BoolObj _ => raise AttributeError
  end.

(** [self.h3_conn._stream[stream_id]] *)
Definition stream_item (stream_id : Z) : Gen PyObj :=
  h3 <- get_h3 ;;
  match dict_get (_stream h3) stream_id with
  | Some o => gret o
  | None => raise KeyError
  end.

(** *** Calls into the codec *)

(** One method of the codec run on the connection: its shim calls reach
    [MockQuic], its table and state are stored, and it ends as the method
    ended. *)
Definition codec_call {A}
    (method : cstate C -> StreamTable -> CodecReturn (cstate C) A) : Gen A :=
  h3 <- get_h3 ;;
  st <- get_state ;;
  let r := method (codec_state h3) (_stream h3) in
  let cq := apply_shim_calls (conn st, _quic h3) (shim_calls r) in
  modify (set_conn (fst cq)) ;;
  put_h3 (mkH3 (snd cq) (stream_table' r) (codec_state' r)) ;;
  fun st' => ([], st', returned r).

Definition send_data (stream_id : Z) (data : bytes) (end_stream : bool)
    : Gen unit :=
  codec_call (fun c t => H3_send_data C c t stream_id data end_stream).

Definition send_headers (stream_id : Z) (headers : H3Headers)
    (end_stream : bool) : Gen unit :=
  codec_call (fun c t => H3_send_headers C c t stream_id headers end_stream).

Definition handle_event_h3 (stream_id : Z) (data : bytes) (end_stream : bool)
    : Gen (list H3Event) :=
  codec_call (fun c t => H3_handle_event C c t stream_id data end_stream).

(** *** [LayeredH3Connection.transmit] *)

(** [while self._quic.pending_commands: yield self._quic.pending_commands.get()]
    run on a queue holding [q].  The [match] is [Queue_get q], written out
    so that the recursion is on the queue: [get()] hands out the oldest
    command, and blocks on an empty queue. *)
Fixpoint transmit_loop (q : list Command) : Gen unit :=
  if Queue_bool q then
    match q with
    | c :: q' =>
        h3 <- get_h3 ;;
        put_h3 (mkH3 (mkMockQuic q' (available_stream_ids (_quic h3)))
                  (_stream h3) (codec_state h3)) ;;
        yield c ;;
        transmit_loop q'
    | [] => block
    end
  else gret tt.

Definition transmit : Gen unit :=
  h3 <- get_h3 ;;
  transmit_loop (pending_commands (_quic h3)).

(** *** The classes bound by the two roles *)

Definition ReceiveData (r : Role) (stream_id : Z) (data : bytes) : HttpEvent :=
  match r with
  | Http3Server => RequestData stream_id data
  | Http3Client => ResponseData stream_id data
  end.

Definition ReceiveEndOfMessage (r : Role) (stream_id : Z) : HttpEvent :=
  match r with
  | Http3Server => RequestEndOfMessage stream_id
  | Http3Client => ResponseEndOfMessage stream_id
  end.

Definition ReceiveProtocolError (r : Role) (stream_id : Z) (message : string)
    (code : Z) : HttpEvent :=
  match r with
  | Http3Server => RequestProtocolError stream_id message code
  | Http3Client => ResponseProtocolError stream_id message code
  end.

Definition ReceiveTrailers (r : Role) (stream_id : Z) (trailers : H3Headers)
    : HttpEvent :=
  match r with
  | Http3Server => RequestTrailers stream_id trailers
  | Http3Client => ResponseTrailers stream_id trailers
  end.

(** [self.ReceiveProtocolError.code] *)
Definition ReceiveProtocolError_code (r : Role) : Z :=
  match r with
  | Http3Server => RequestProtocolError_code X
  | Http3Client => ResponseProtocolError_code X
  end.

(** *** [parse_headers]: the message of the [ValueError], or the event *)

Definition Http3Server_parse_headers (headers : H3Headers) (stream_id : Z)
    (stream_ended : bool) : string + HttpEvent :=
  match parse_h2_request_headers X headers with
  | inl e => inl e
  | inr (host, port, method, scheme, authority, path, hdrs) =>
      inr (RequestHeaders stream_id
             (mkRequest host port method scheme authority path "HTTP/3" hdrs
                None None (time_time X) None)
             stream_ended)
  end.

Definition Http3Client_parse_headers (headers : H3Headers) (stream_id : Z)
    (stream_ended : bool) : string + HttpEvent :=
  match parse_h2_response_headers X headers with
  | inl e => inl e
  | inr (status_code, hdrs) =>
      inr (ResponseHeaders stream_id
             (mkResponse "HTTP/3" status_code "" hdrs None None
                (time_time X) None)
             stream_ended)
  end.

Definition parse_headers (r : Role) : H3Headers -> Z -> bool -> string + HttpEvent :=
  match r with
  | Http3Server => Http3Server_parse_headers
  | Http3Client => Http3Client_parse_headers
  end.

(** *** [postprocess_outgoing_event] *)

Definition Http3Connection_postprocess_outgoing_event (event : HttpEvent)
    : Gen HttpEvent :=
  gret event.

(** [event.stream_id = self._quic_to_event[event.stream_id]] *)
Definition Http3Client_postprocess_outgoing_event (event : HttpEvent)
    : Gen HttpEvent :=
  st <- get_state ;;
  match _quic_to_event st !! event_stream_id event with
  | Some logical_id => gret (set_stream_id event logical_id)
  | None => raise KeyError
  end.

Definition postprocess_outgoing_event (event : HttpEvent) : Gen HttpEvent :=
  st <- get_state ;;
  match role st with
  | Http3Server => Http3Connection_postprocess_outgoing_event event
  | Http3Client => Http3Client_postprocess_outgoing_event event
  end.

(** [yield ReceiveHttp(self.postprocess_outgoing_event(event))] *)
Definition report (event : HttpEvent) : Gen unit :=
  e <- postprocess_outgoing_event event ;;
  yield (ReceiveHttp e).

(** *** [preprocess_incoming_event] *)

Definition Http3Connection_preprocess_incoming_event (event : HttpEvent)
    : Gen HttpEvent :=
  gret event.

(** [new_id] is what the transport answers to [OpenQuicStream], should the
    generator ask. *)
Definition Http3Client_preprocess_incoming_event (new_id : Z)
    (event : HttpEvent) : Gen HttpEvent :=
  st <- get_state ;;
  match _event_to_quic st !! event_stream_id event with
  | Some transport_id => gret (set_stream_id event transport_id)
  | None =>
      yield (OpenQuicStream false) ;;
      modify (set_id_maps
                (<[event_stream_id event := new_id]> (_event_to_quic st))
                (<[new_id := event_stream_id event]> (_quic_to_event st))) ;;
      gret (set_stream_id event new_id)
  end.

Definition preprocess_incoming_event (new_id : Z) (event : HttpEvent)
    : Gen HttpEvent :=
  st <- get_state ;;
  match role st with
  | Http3Server => Http3Connection_preprocess_incoming_event event
  | Http3Client => Http3Client_preprocess_incoming_event new_id event
  end.

(** *** [send_protocol_error] *)

(** The status a response-side error is answered with. *)
Definition server_error_status (code : Z) : Z :=
  if negb (Z.eqb code CLIENT_CLOSED_REQUEST) then INTERNAL_SERVER_ERROR
  else code.

Definition server_error_headers (code : Z) : H3Headers :=
  [ (":status", bytes_of_int code);
    ("server", MITMPROXY X);
    ("content-type", "text/html") ].

Definition Http3Server_send_protocol_error (event : HttpEvent) : Gen unit :=
  get_h3 ;;
  match event with
  | ResponseProtocolError stream_id message code =>
      let code := server_error_status code in
      send_headers stream_id (server_error_headers code) false ;;
      send_data stream_id (format_error X code message) true
  | _ => raise AssertionError
  end.

(** The error code a request-side error resets the stream with. *)
Definition client_error_code (code : Z) : Z :=
  if negb (Z.eqb code H3_REQUEST_CANCELLED) then H3_INTERNAL_ERROR else code.

(** The body of [Http3Client.send_protocol_error].  It holds a [yield], so
    the method is a generator function. *)
Definition Http3Client_send_protocol_error_body (event : HttpEvent)
    : Gen unit :=
  match event with
  | RequestProtocolError stream_id message code =>
      yield (ResetQuicStream stream_id (client_error_code code))
  | _ => raise AssertionError
  end.

(** [self.send_protocol_error(event)] as line 190 calls it: a plain call
    whose result is not used. *)
Definition send_protocol_error (event : HttpEvent) : Gen unit :=
  st <- get_state ;;
  match role st with
  | Http3Server => Http3Server_send_protocol_error event
  | Http3Client =>
      generator_object_dropped (Http3Client_send_protocol_error_body event)
  end.

(** *** [state_ready], branch by branch *)

(** [self.h3_conn._stream[stream_id].headers_send_state = AFTER_TRAILERS] *)
Definition force_after_trailers (sid : Z) : Gen unit :=
  o <- stream_item sid ;;
  s <- attr_stream (fun s => s) o ;;
  h3 <- get_h3 ;;
  put_h3 (mkH3 (_quic h3)
            (dict_set (_stream h3) sid
               (StreamObj (mkH3Stream (ended s) (headers_recv_state s)
                             AFTER_TRAILERS (stream_id s))))
            (codec_state h3)).

(** The body of the [try] of lines 156 to 192. *)
Definition send_intent (event : HttpEvent) : Gen unit :=
  match event with
  | RequestData stream_id data | ResponseData stream_id data =>
      send_data stream_id data false
  | RequestHeaders stream_id request end_stream =>
      let '(cmds, headers) := format_h2_request_headers X request in
      yield_all cmds ;;
      send_headers stream_id headers end_stream ;;
      if end_stream then force_after_trailers stream_id else gret tt
  | ResponseHeaders stream_id response end_stream =>
      let '(cmds, headers) := format_h2_response_headers X response in
      yield_all cmds ;;
      send_headers stream_id headers end_stream ;;
      if end_stream then force_after_trailers stream_id else gret tt
  | RequestTrailers stream_id trailers | ResponseTrailers stream_id trailers =>
      send_headers stream_id trailers true
  | RequestEndOfMessage stream_id | ResponseEndOfMessage stream_id =>
      send_data stream_id "" true
  | RequestProtocolError _ _ _ | ResponseProtocolError _ _ _ =>
      send_protocol_error event
  end.

(** Lines 154 to 200. *)
Definition on_http_event (new_id : Z) (event : HttpEvent) : Gen unit :=
  event <- preprocess_incoming_event new_id event ;;
  try_except_else (send_intent event) H3FrameUnexpected (gret tt) transmit.

(** Lines 202 to 226. *)
Definition on_stream_reset (stream_id : Z) (error_code : Z) : Gen unit :=
  h3 <- get_h3 ;;
  st <- get_state ;;
  if stream_is_client_initiated stream_id then
    match dict_get (_stream h3) stream_id with
    | None => gret tt
    | Some o =>
        is_ended <- attr_stream ended o ;;
        if negb is_ended then
          put_h3 (mkH3 (_quic h3)
                    (dict_set (_stream h3) stream_id (BoolObj true))
                    (codec_state h3)) ;;
          let code :=
            if Z.eqb error_code H3_REQUEST_CANCELLED
            then CLIENT_CLOSED_REQUEST
            else ReceiveProtocolError_code (role st) in
          report (ReceiveProtocolError (role st) stream_id
                    ("stream reset by client ("
                     +:+ error_code_to_str X error_code +:+ ")")
                    code)
        else gret tt
    end
  else gret tt.

(** The body of the loop of lines 232 to 301. *)
Definition on_h3_event (h3_event : H3Event) : Gen unit :=
  st <- get_state ;;
  yield (Log ("h3_event=" +:+ repr_h3_event X h3_event) "info") ;;
  let ignored :=
    yield (Log ("Ignored unsupported H3 event: " +:+ repr_h3_event X h3_event)
             (if stream_is_client_initiated (h3_event_stream_id h3_event)
              then "info" else "debug")) in
  match h3_event with
  | DataReceived data stream_id stream_ended =>
      if stream_is_client_initiated stream_id then
        report (ReceiveData (role st) stream_id data) ;;
        if stream_ended
        then report (ReceiveEndOfMessage (role st) stream_id)
        else gret tt
      else ignored
  | HeadersReceived headers stream_id stream_ended =>
      if stream_is_client_initiated stream_id then
        o <- stream_item stream_id ;;
        recv_state <- attr_stream headers_recv_state o ;;
        (if HeadersState_is recv_state AFTER_TRAILERS then
           report (ReceiveTrailers (role st) stream_id headers)
         else
           match parse_headers (role st) headers stream_id stream_ended with
           | inl e =>
               st' <- get_state ;;
               modify (set_conn
                         (set_connection_error (conn st')
                            (mkConnectionTerminated H3_GENERAL_PROTOCOL_ERROR
                               None
                               ("Invalid HTTP/3 request headers: " +:+ e)))) ;;
               yield CloseConnection
           | inr receive_event => report receive_event
           end) ;;
        if stream_ended
        then report (ReceiveEndOfMessage (role st) stream_id)
        else gret tt
      else ignored
  | OtherH3Event _ => ignored
  end.

Fixpoint for_each {A} (body : A -> Gen unit) (l : list A) : Gen unit :=
  match l with
  | [] => gret tt
  | x :: l' => body x ;; for_each body l'
  end.

(** Lines 228 to 301. *)
Definition on_stream_data (event : Event) (stream_id : Z) (data : bytes)
    (end_stream : bool) : Gen unit :=
  yield (Log ("recvd data: event=" +:+ repr_event X event) "info") ;;
  h3_events <- handle_event_h3 stream_id data end_stream ;;
  for_each on_h3_event h3_events.

(** The body of the loop of lines 305 to 324. *)
Definition on_closed_stream (stream : PyObj) : Gen unit :=
  st <- get_state ;;
  sid <- attr_stream stream_id stream ;;
  if stream_is_client_initiated sid then
    is_ended <- attr_stream ended stream ;;
    if negb is_ended then
      let close_event := get_connection_error (conn st) in
      report (ReceiveProtocolError (role st) sid
                (match close_event with
                 | None => "Connection closed."
                 | Some ce => reason_phrase ce
                 end)
                (match close_event with
                 | None => APPLICATION_ERROR
                 | Some ce => error_code ce
                 end))
    else gret tt
  else gret tt.

(** Lines 304 to 325. *)
Definition on_connection_closed : Gen unit :=
  h3 <- get_h3 ;;
  for_each on_closed_stream (dict_values (_stream h3)) ;;
  modify (set_handler state_done_h).

(** *** The three states *)

(** [state_ready], with the check of its [expect] decorator. *)
Definition state_ready (new_id : Z) (event : Event) : Gen unit :=
  match event with
  | Start => raise AssertionError
  | HttpEv e => get_h3 ;; on_http_event new_id e
  | QuicStreamReset stream_id error_code =>
      get_h3 ;; on_stream_reset stream_id error_code
  | QuicStreamDataReceived stream_id data end_stream =>
      get_h3 ;; on_stream_data event stream_id data end_stream
  | ConnectionClosed => get_h3 ;; on_connection_closed
  end.

Definition state_done (event : Event) : Gen unit :=
  match event with
  | Start => raise AssertionError
  | _ => gret tt
  end.

(** [LayeredH3Connection.start]: [range(1, 3)] has two elements; [id1] and
    [id2] are the transport's answers. *)
Definition start (id1 id2 : Z) : Gen unit :=
  for_each
    (fun reply =>
       yield (OpenQuicStream false) ;;
       h3 <- get_h3 ;;
       put_h3 (mkH3 (mkMockQuic (pending_commands (_quic h3))
                       (Queue_put (available_stream_ids (_quic h3)) reply))
                 (_stream h3) (codec_state h3)))
    [id1; id2].

(** [state_start].  [LayeredH3Connection(self.conn)] makes a fresh shim
    and runs the constructor of the codec on it.  What the constructor
    records on the connection through [close] stays; [self.h3_conn] and
    [self._handle_event] are assigned only if the constructor returns, and
    [start] runs only then. *)
Definition state_start (id1 id2 : Z) (event : Event) : Gen unit :=
  match event with
  | Start =>
      st <- get_state ;;
      match h3_conn st with
      | Some _ => raise AssertionError
      | None =>
          let r := H3_init C in
          let cq := apply_shim_calls (conn st, mkMockQuic [] []) (shim_calls r) in
          modify (set_conn (fst cq)) ;;
          match returned r with
          | Returned _ =>
              put_h3 (mkH3 (snd cq) (stream_table' r) (codec_state' r)) ;;
              modify (set_handler state_ready_h) ;;
              start id1 id2
          | Raised e => raise e
          | Blocked => block
          end
      end
  | _ => raise AssertionError
  end.

(** [self._handle_event(event)].  [id1] and [id2] are the ids the transport
    hands out when the handler opens streams: [state_ready] opens at most
    one, [state_start] two. *)
Definition handle_event (id1 id2 : Z) (event : Event) : Gen unit :=
  st <- get_state ;;
  match _handle_event st with
  | state_start_h => state_start id1 id2 event
  | state_ready_h => state_ready id1 event
  | state_done_h => state_done event
  end.

(** A fresh layer object. *)
Definition new_layer (r : Role) : Layer :=
  mkLayer r state_start_h (mkConnection None) None ∅ ∅.

(** *** Vocabulary of the properties *)

(** The transport id an outgoing event of logical id [i] is sent on, if
    one is known already, and the logical id a report on transport id [i]
    leaves the layer with. *)
Definition transport_id (st : Layer) (i : Z) : option Z :=
  match role st with
  | Http3Server => Some i
  | Http3Client => _event_to_quic st !! i
  end.

Definition logical_id (st : Layer) (i : Z) : option Z :=
  match role st with
  | Http3Server => Some i
  | Http3Client => _quic_to_event st !! i
  end.

(** The two id maps of a layer, and generators that leave them alone. *)
Definition maps_of (st : Layer) : gmap Z Z * gmap Z Z :=
  (_event_to_quic st, _quic_to_event st).

Definition keeps_maps {A} (g : Gen A) : Prop :=
  forall st, maps_of (final_state (g st)) = maps_of st.

(** What one event may do to the id maps when [new_id] is the id the
    transport would hand out: nothing, or one new pair for a logical id
    that had none. *)
Definition maps_step (new_id : Z) (m m' : gmap Z Z * gmap Z Z) : Prop :=
  m' = m
  \/ exists l, fst m !! l = None
               /\ m' = (<[l := new_id]> (fst m), <[new_id := l]> (snd m)).

(** The two id maps are inverse to each other. *)
Definition id_maps_inverse (st : Layer) : Prop :=
  forall l t, _event_to_quic st !! l = Some t <-> _quic_to_event st !! t = Some l.

(** The commands the imported header formatter yields for a Headers
    event; other events do not go through it. *)
Definition formatter_commands (event : HttpEvent) : list Command :=
  match event with
  | RequestHeaders _ request _ => fst (format_h2_request_headers X request)
  | ResponseHeaders _ response _ => fst (format_h2_response_headers X response)
  | _ => []
  end.

(** In the state of [h3], the codec rejects every DATA frame, respectively
    every HEADERS frame, on stream [i]. *)
Definition rejects_data (h3 : LayeredH3Connection) (i : Z) : Prop :=
  forall data end_stream,
    returned (H3_send_data C (codec_state h3) (_stream h3) i data end_stream)
    = Raised H3FrameUnexpected.

Definition rejects_headers (h3 : LayeredH3Connection) (i : Z) : Prop :=
  forall headers end_stream,
    returned (H3_send_headers C (codec_state h3) (_stream h3) i headers
                end_stream)
    = Raised H3FrameUnexpected.

(** The frame kind an outgoing Data, Headers, Trailers or EndOfMessage
    event needs is rejected on stream [i]. *)
Definition rejects_intent (h3 : LayeredH3Connection) (i : Z)
    (event : HttpEvent) : Prop :=
  match event with
  | RequestData _ _ | ResponseData _ _
  | RequestEndOfMessage _ | ResponseEndOfMessage _ => rejects_data h3 i
  | RequestHeaders _ _ _ | ResponseHeaders _ _ _
  | RequestTrailers _ _ | ResponseTrailers _ _ => rejects_headers h3 i
  | RequestProtocolError _ _ _ | ResponseProtocolError _ _ _ => False
  end.

(** The layer after a rejected codec call: the call's side effects stay,
    nothing is taken out of the queue. *)
Definition after_codec_call {A} (st : Layer) (h3 : LayeredH3Connection)
    (r : CodecReturn (cstate C) A) : Layer :=
  let cq := apply_shim_calls (conn st, _quic h3) (shim_calls r) in
  set_h3_conn (Some (mkH3 (snd cq) (stream_table' r) (codec_state' r)))
    (set_conn (fst cq) st).

(** The codec call an outgoing Data, Headers, Trailers or EndOfMessage
    event on transport stream [i] leads to, as a state change. *)
Definition after_intent_call (st : Layer) (h3 : LayeredH3Connection) (i : Z)
    (event : HttpEvent) : Layer :=
  let data d e :=
    after_codec_call st h3
      (H3_send_data C (codec_state h3) (_stream h3) i d e) in
  let headers h e :=
    after_codec_call st h3
      (H3_send_headers C (codec_state h3) (_stream h3) i h e) in
  match event with
  | RequestData _ d | ResponseData _ d => data d false
  | RequestEndOfMessage _ | ResponseEndOfMessage _ => data "" true
  | RequestHeaders _ r e => headers (snd (format_h2_request_headers X r)) e
  | ResponseHeaders _ r e => headers (snd (format_h2_response_headers X r)) e
  | RequestTrailers _ t | ResponseTrailers _ t => headers t true
  | RequestProtocolError _ _ _ | ResponseProtocolError _ _ _ => st
  end.

(** The report closure owes a stream: an error for a client-initiated
    stream that is not ended, nothing otherwise. *)
Definition closure_report (r : Role) (close_event : option ConnectionTerminated)
    (s : H3Stream) : list Command :=
  if stream_is_client_initiated (stream_id s) && negb (ended s)
  then [ReceiveHttp
          (ReceiveProtocolError r (stream_id s)
             (match close_event with
              | None => "Connection closed."
              | Some ce => reason_phrase ce
              end)
             (match close_event with
              | None => APPLICATION_ERROR
              | Some ce => error_code ce
              end))]
  else [].

(** Reports that end a message on logical stream [i]. *)
Definition is_terminal_report (i : Z) (c : Command) : bool :=
  match c with
  | ReceiveHttp (RequestEndOfMessage j) | ReceiveHttp (ResponseEndOfMessage j)
  | ReceiveHttp (RequestProtocolError j _ _)
  | ReceiveHttp (ResponseProtocolError j _ _) => Z.eqb i j
  | _ => false
  end.

Definition is_headers_report (i : Z) (c : Command) : bool :=
  match c with
  | ReceiveHttp (RequestHeaders j _ _) | ReceiveHttp (ResponseHeaders j _ _) =>
      Z.eqb i j
  | _ => false
  end.

Definition count_commands (p : Command -> bool) (cs : list Command) : nat :=
  length (filter (fun c => p c = true) cs).

(** Events delivered one after the other, each with the ids the transport
    would hand out.  Delivery stops at the first handler that does not
    return.  The result is what was yielded, the layer left behind, and
    how the last handler that ran ended. *)
Fixpoint deliver (events : list (Event * (Z * Z))) (st : Layer)
    : Outcome unit :=
  match events with
  | [] => ([], st, Returned tt)
  | (event, (id1, id2)) :: rest =>
      match handle_event id1 id2 event st with
      | (out, st', Returned _) => after out (deliver rest st')
      | o => o
      end
  end.

(** A generator that leaves the part [f] of the layer as it found it,
    however it ends. *)
Definition preserves {T A} (f : Layer -> T) (g : Gen A) : Prop :=
  forall st, f (final_state (g st)) = f st.

(** A generator all of whose commands satisfy [P], however it ends. *)
Definition emits_only {A} (P : Command -> Prop) (g : Gen A) : Prop :=
  forall st, Forall P (emitted (g st)).

(** Commands that touch no stream of the transport: notes, reports and
    the close of the connection. *)
Definition is_local_command (c : Command) : Prop :=
  match c with
  | Log _ _ | ReceiveHttp _ | CloseConnection => True
  | OpenQuicStream _ | SendQuicStreamData _ _ _ | ResetQuicStream _ _ => False
  end.

(** Events that come from the transport. *)
Definition is_transport_event (ev : Event) : Prop :=
  match ev with
  | QuicStreamDataReceived _ _ _ | QuicStreamReset _ _ | ConnectionClosed => True
  | Start | HttpEv _ => False
  end.

(** Decoded events the layer does not translate: those of streams that
    are not client-initiated, and those that are neither data nor
    headers. *)
Definition is_ignored_h3_event (e : H3Event) : bool :=
  match e with
  | DataReceived _ i _ | HeadersReceived _ i _ =>
      negb (stream_is_client_initiated i)
  | OtherH3Event _ => true
  end.

(** The [EndOfMessage] report that follows a decoded event which came with
    the end of the stream. *)
Definition end_of_message_report (r : Role) (l : Z) (stream_ended : bool)
    : list Command :=
  if stream_ended then [ReceiveHttp (ReceiveEndOfMessage r l)] else [].

(** The call into the codec an outgoing Data, Headers, Trailers or
    EndOfMessage event on transport stream [i] leads to. *)
Definition intent_call (h3 : LayeredH3Connection) (i : Z) (event : HttpEvent)
    : option (CodecReturn (cstate C) unit) :=
  let data d e := H3_send_data C (codec_state h3) (_stream h3) i d e in
  let headers h e := H3_send_headers C (codec_state h3) (_stream h3) i h e in
  match event with
  | RequestData _ d | ResponseData _ d => Some (data d false)
  | RequestEndOfMessage _ | ResponseEndOfMessage _ => Some (data "" true)
  | RequestHeaders _ r e =>
      Some (headers (snd (format_h2_request_headers X r)) e)
  | ResponseHeaders _ r e =>
      Some (headers (snd (format_h2_response_headers X r)) e)
  | RequestTrailers _ t | ResponseTrailers _ t => Some (headers t true)
  | RequestProtocolError _ _ _ | ResponseProtocolError _ _ _ => None
  end.

(** The events after whose header block the layer sets the stream's send
    state itself (lines 174 to 178). *)
Definition forces_trailers (event : HttpEvent) : bool :=
  match event with
  | RequestHeaders _ _ e | ResponseHeaders _ _ e => e
  | _ => false
  end.

(** A stream the closure of the connection reports on. *)
Definition is_open_client_stream (s : H3Stream) : bool :=
  stream_is_client_initiated (stream_id s) && negb (ended s).

(** The report closure owes a stream when [lid] gives the logical ids and
    [close_event] is the error recorded on the connection. *)
Definition closure_report_for (r : Role) (lid : Z -> option Z)
    (close_event : option ConnectionTerminated) (s : H3Stream)
    : list Command :=
  if is_open_client_stream s then
    match lid (stream_id s) with
    | Some l =>
        [ReceiveHttp
           (ReceiveProtocolError r l
              (match close_event with
               | None => "Connection closed."
               | Some ce => reason_phrase ce
               end)
              (match close_event with
               | None => APPLICATION_ERROR
               | Some ce => error_code ce
               end))]
    | None => []
    end
  else [].

End Layer.

Arguments mkH3 {C}.
Arguments _quic {C}.
Arguments _stream {C}.
Arguments codec_state {C}.
Arguments mkLayer {C}.
Arguments role {C}.
Arguments _handle_event {C}.
Arguments conn {C}.
Arguments h3_conn {C}.
Arguments _event_to_quic {C}.
Arguments _quic_to_event {C}.
Arguments emitted {C A}.
Arguments final_state {C A}.
Arguments completion {C A}.
Arguments set_handler {C}.
Arguments set_conn {C}.
Arguments set_h3_conn {C}.
Arguments set_id_maps {C}.
Arguments transport_id {C}.
Arguments logical_id {C}.
Arguments id_maps_inverse {C}.
Arguments maps_of {C}.
Arguments keeps_maps {C A}.
Arguments preserves {C T A}.
Arguments emits_only {C A}.
Arguments rejects_data {C}.
Arguments rejects_headers {C}.
Arguments rejects_intent {C}.

(** ** A small codec and helper set to run the layer on

    [Sample.codec] keeps, per stream, the send-side life cycle the layer
    relies on (headers not sent, headers sent, trailers or end sent) and
    writes frames in a readable form.  It stands in for the real codec
    where a property is evaluated on concrete input; no theorem about
    arbitrary codecs depends on it. *)
Module Sample.

Definition encode_headers (headers : H3Headers) : bytes :=
  "HEADERS "
  +:+ String.concat ", " (map (fun kv => fst kv +:+ ": " +:+ snd kv) headers).

Definition encode_data (data : bytes) : bytes := "DATA " +:+ data.

(** The stream object of [sid], made on first use. *)
Definition get_or_create_stream (t : StreamTable) (sid : Z)
    : Result (StreamTable * H3Stream) :=
  match dict_get t sid with
  | None =>
      let s := mkH3Stream false INITIAL INITIAL sid in
      Returned (dict_set t sid (StreamObj s), s)
  | Some (StreamObj s) => Returned (t, s)
  | Some (BoolObj _) => Raised AttributeError
  end.

Definition with_stream {A} (t : StreamTable) (sid : Z)
    (k : StreamTable -> H3Stream -> CodecReturn unit A) : CodecReturn unit A :=
  match get_or_create_stream t sid with
  | Returned (t', s) => k t' s
  | Raised e => mkCodecReturn [] tt t (Raised e)
  | Blocked => mkCodecReturn [] tt t Blocked
  end.

(** A DATA frame is legal only between the headers and the trailers. *)
Definition send_data (_ : unit) (t : StreamTable) (sid : Z) (data : bytes)
    (end_stream : bool) : CodecReturn unit unit :=
  with_stream t sid (fun t' s =>
    if HeadersState_is (headers_send_state s) AFTER_HEADERS
    then mkCodecReturn [Call_send_stream_data sid (encode_data data) end_stream]
           tt t' (Returned tt)
    else mkCodecReturn [] tt t' (Raised H3FrameUnexpected)).

(** A HEADERS frame is legal until the trailers are sent. *)
Definition send_headers (_ : unit) (t : StreamTable) (sid : Z)
    (headers : H3Headers) (end_stream : bool) : CodecReturn unit unit :=
  with_stream t sid (fun t' s =>
    if HeadersState_is (headers_send_state s) AFTER_TRAILERS
    then mkCodecReturn [] tt t' (Raised H3FrameUnexpected)
    else
      let next :=
        if HeadersState_is (headers_send_state s) INITIAL
        then AFTER_HEADERS else AFTER_TRAILERS in
      mkCodecReturn
        [Call_send_stream_data sid (encode_headers headers) end_stream]
        tt
        (dict_set t' sid
           (StreamObj (mkH3Stream (ended s) (headers_recv_state s) next
                         (stream_id s))))
        (Returned tt)).

(** The first chunk received on a stream is read as a header block with
    one field, later chunks as body data. *)
Definition handle_event (_ : unit) (t : StreamTable) (sid : Z) (data : bytes)
    (end_stream : bool) : CodecReturn unit (list H3Event) :=
  with_stream t sid (fun t' s =>
    let is_ended := ended s || end_stream in
    if HeadersState_is (headers_recv_state s) INITIAL
    then mkCodecReturn [] tt
           (dict_set t' sid
              (StreamObj (mkH3Stream is_ended AFTER_HEADERS
                            (headers_send_state s) (stream_id s))))
           (Returned [HeadersReceived [(":method", data)] sid end_stream])
    else mkCodecReturn [] tt
           (dict_set t' sid
              (StreamObj (mkH3Stream is_ended (headers_recv_state s)
                            (headers_send_state s) (stream_id s))))
           (Returned [DataReceived data sid end_stream])).

(** The constructor of the sample fails on the shim, as a constructor
    does that reads an attribute of the QUIC connection which [MockQuic]
    (the connection, two queues and three methods) does not have. *)
Definition init : CodecReturn unit unit :=
  mkCodecReturn [] tt [] (Raised AttributeError).

Definition codec : Codec := mkCodec unit init send_data send_headers handle_event.

Definition externals : Externals :=
  {| MITMPROXY := "mitmproxy";
     format_error := fun code message => bytes_of_int code +:+ " " +:+ message;
     error_code_to_str := bytes_of_int;
     RequestProtocolError_code := 400;
     ResponseProtocolError_code := 502;
     format_h2_request_headers := fun r =>
       ([], (":method", req_method r) :: (":path", req_path r) :: req_headers r);
     format_h2_response_headers := fun r =>
       ([], (":status", bytes_of_int (resp_status_code r)) :: resp_headers r);
     parse_h2_request_headers := fun h =>
       match h with
       | (":method", m) :: rest =>
           inr ("example.com", 443, m, "https", "example.com", "/", rest)
       | _ => inl "Required pseudo header is missing: :method"
       end;
     parse_h2_response_headers := fun h =>
       match h with
       | (":status", "200") :: rest => inr (200, rest)
       | _ => inl "Required pseudo header is missing: :status"
       end;
     time_time := 0;
     repr_event := fun _ => "Event";
     repr_h3_event := fun _ => "H3Event" |}.

(** A stream object as the codec makes it, then with chosen states. *)
Definition open_stream (sid : Z) : H3Stream :=
  mkH3Stream false AFTER_HEADERS INITIAL sid.

Definition finished_stream (sid : Z) : H3Stream :=
  mkH3Stream true AFTER_HEADERS AFTER_TRAILERS sid.

(** A layer in [state_ready] with the given table, queue and id maps. *)
Definition ready (r : Role) (t : StreamTable) (pending : list Command)
    (e2q q2e : gmap Z Z) : Layer codec :=
  mkLayer r state_ready_h (mkConnection None)
    (Some (mkH3 (C := codec) (mkMockQuic pending []) t tt)) e2q q2e.

(** A stream on which the response headers are sent and the body is
    open. *)
Definition sending_stream (sid : Z) : H3Stream :=
  mkH3Stream false AFTER_HEADERS AFTER_HEADERS sid.

(** A stream on which the request trailers have been received. *)
Definition trailing_stream (sid : Z) : H3Stream :=
  mkH3Stream false AFTER_TRAILERS INITIAL sid.

Definition sample_response : Response :=
  mkResponse "HTTP/3" 204 "" [] None None 0 None.

Definition sample_request : Request :=
  mkRequest "example.com" 443 "GET" "https" "example.com" "/" "HTTP/3" []
    None None 0 None.

(** The connection object of [ready] with its codec connection. *)
Definition ready_h3 (t : StreamTable) (pending : list Command)
    : LayeredH3Connection codec :=
  mkH3 (C := codec) (mkMockQuic pending []) t tt.

(** Events that may follow a closure. *)
Definition after_closure : list (Event * (Z * Z)) :=
  [ (ConnectionClosed, (8, 8));
    (QuicStreamReset 0 H3_REQUEST_CANCELLED, (8, 8));
    (HttpEv (ResponseData 0 "late"), (8, 8)) ].

(** A second receive side, for chunks that hold several frames.  The
    frames of a chunk are separated by "|" and each is a header block: the
    first block of a stream is its header block, the second its trailers,
    and the receive state follows.  All frames of the chunk are decoded
    before the events are handed back, and the last event carries the end
    of the stream. *)
Definition separator : Ascii.ascii := Ascii.ascii_of_nat 124.

Fixpoint split_frames (acc : string) (s : string) : list string :=
  match s with
  | EmptyString => [acc]
  | String c rest =>
      if Ascii.eqb c separator then acc :: split_frames "" rest
      else split_frames (acc +:+ String c "") rest
  end.

Fixpoint decode_frames (sid : Z) (state : HeadersState)
    (frames : list string) (end_stream : bool)
    : list H3Event * HeadersState :=
  match frames with
  | [] => ([], state)
  | f :: rest =>
      let stream_ended :=
        end_stream && match rest with [] => true | _ => false end in
      match state with
      | INITIAL =>
          let '(evs, state') := decode_frames sid AFTER_HEADERS rest end_stream in
          (HeadersReceived [(":method", f)] sid stream_ended :: evs, state')
      | AFTER_HEADERS =>
          let '(evs, state') := decode_frames sid AFTER_TRAILERS rest end_stream in
          (HeadersReceived [("trailer", f)] sid stream_ended :: evs, state')
      | AFTER_TRAILERS => ([], AFTER_TRAILERS)
      end
  end.

Definition burst_handle_event (_ : unit) (t : StreamTable) (sid : Z)
    (data : bytes) (end_stream : bool) : CodecReturn unit (list H3Event) :=
  with_stream t sid (fun t' s =>
    let '(evs, state') :=
      decode_frames sid (headers_recv_state s) (split_frames "" data)
        end_stream in
    mkCodecReturn [] tt
      (dict_set t' sid
         (StreamObj (mkH3Stream (ended s || end_stream) state'
                       (headers_send_state s) (stream_id s))))
      (Returned evs)).

Definition burst_codec : Codec :=
  mkCodec unit init send_data send_headers burst_handle_event.

(** A layer in [state_ready] on the codec with the second receive side. *)
Definition burst_ready (r : Role) (t : StreamTable) : Layer burst_codec :=
  mkLayer r state_ready_h (mkConnection None)
    (Some (mkH3 (C := burst_codec) (mkMockQuic [] []) t tt)) ∅ ∅.

End Sample.

(** * Properties *)

Section Properties.

Context (X : Externals) (C : Codec).

Implicit Types (st : Layer C).
Implicit Types (q : list Command) (event : HttpEvent).

(** Unfolds the plumbing of [Gen]. *)
Ltac gen_unfold :=
  unfold gbind, gret, yield, raise, block, get_state, modify, after,
    emitted, final_state, completion, get_h3, put_h3 in *.

Ltac gen_simpl := repeat (gen_unfold; simpl in *).

(** ** The shim *)

Lemma apply_shim_calls_queue (cs : list ShimCall) :
  forall (cn : Connection) (mq : MockQuic),
    snd (apply_shim_calls (cn, mq) cs)
    = mkMockQuic (pending_commands mq ++ map shim_command cs)
        (available_stream_ids mq).
Proof.
  unfold apply_shim_calls.
  induction cs as [|c cs IH]; intros cn [pend ids]; simpl.
  - by rewrite app_nil_r.
  - destruct c; simpl; rewrite IH; simpl; unfold Queue_put;
      by rewrite <- app_assoc.
Qed.

(** ** [transmit] *)

Lemma transmit_loop_blocks q :
  forall r h cn pend ids t c e2q q2e,
    transmit_loop C q
      (mkLayer r h cn (Some (mkH3 (mkMockQuic pend ids) t c)) e2q q2e)
    = (q,
       mkLayer r h cn
         (Some (mkH3 (mkMockQuic (match q with [] => pend | _ => [] end) ids)
                  t c))
         e2q q2e,
       Blocked).
Proof.
  induction q as [|x q IH]; intros; simpl; [reflexivity|].
  gen_simpl. unfold set_h3_conn; simpl. rewrite IH; simpl.
  by destruct q.
Qed.

(** [transmit] on a layer with a codec connection. *)
Lemma transmit_run st h3 :
  h3_conn st = Some h3 ->
  transmit C st
  = (pending_commands (_quic h3),
     set_h3_conn
       (Some (mkH3 (mkMockQuic [] (available_stream_ids (_quic h3)))
                (_stream h3) (codec_state h3)))
       st,
     Blocked).
Proof.
  intros Hc. destruct st as [r h cn oh e2q q2e]; simpl in *; subst.
  destruct h3 as [[q ids] t c].
  unfold transmit. gen_simpl. rewrite transmit_loop_blocks; simpl.
  by destruct q.
Qed.

(** Whatever the queue and the layer, the loop never returns. *)
Lemma transmit_loop_never_returns q :
  forall st, completion (transmit_loop C q st) <> Returned tt.
Proof.
  induction q as [|x q IH]; intros st; simpl; [discriminate|].
  gen_simpl. destruct (h3_conn st) as [h3|]; simpl; [|discriminate].
  specialize (IH (set_h3_conn
    (Some (mkH3 (mkMockQuic q (available_stream_ids (_quic h3)))
             (_stream h3) (codec_state h3))) st)).
  gen_simpl.
  destruct (transmit_loop C q _) as [[out st'] res]; simpl in *.
  by destruct res.
Qed.

(** C3 (the code departs from it).  [transmit] yields the queued commands
    in the order they were queued, and then does not return: the loop
    condition is a [queue.Queue], which is always true, so after the last
    command the loop calls [get()] on the empty queue and stays there.
    No run of the loop returns. *)
Theorem C3_transmit_drains_in_order_then_blocks :
  (forall r h cn q ids t c e2q q2e,
     transmit C (mkLayer r h cn (Some (mkH3 (mkMockQuic q ids) t c)) e2q q2e)
     = (q,
        mkLayer r h cn (Some (mkH3 (mkMockQuic [] ids) t c)) e2q q2e,
        Blocked))
  /\ (forall q st, completion (transmit_loop C q st) <> Returned tt).
Proof.
  split.
  - intros. by rewrite (transmit_run _ (mkH3 (mkMockQuic q ids) t c)).
  - apply transmit_loop_never_returns.
Qed.

(** ** Reports *)

Lemma set_stream_id_same event :
  set_stream_id event (event_stream_id event) = event.
Proof. by destruct event. Qed.

Lemma event_stream_id_set event (i : Z) :
  event_stream_id (set_stream_id event i) = i.
Proof. by destruct event. Qed.

Lemma report_known st event (l : Z) :
  logical_id st (event_stream_id event) = Some l ->
  report C event st = ([ReceiveHttp (set_stream_id event l)], st, Returned tt).
Proof.
  unfold logical_id, report, postprocess_outgoing_event,
    Http3Client_postprocess_outgoing_event,
    Http3Connection_postprocess_outgoing_event.
  intros H. gen_simpl. destruct (role st); gen_simpl.
  - injection H as <-. by rewrite set_stream_id_same.
  - by rewrite H.
Qed.

Lemma report_unknown st event :
  logical_id st (event_stream_id event) = None ->
  report C event st = ([], st, Raised KeyError).
Proof.
  unfold logical_id, report, postprocess_outgoing_event,
    Http3Client_postprocess_outgoing_event.
  intros H. gen_simpl. destruct (role st); gen_simpl; [discriminate|].
  by rewrite H.
Qed.

(** ** Stream resets *)

(** What [state_ready] does with the reset of an open client-initiated
    stream: the table entry becomes [True] and one error is reported. *)
Lemma reset_of_open_stream st h3 (sid error_code l id1 id2 : Z) (s : H3Stream) :
  _handle_event st = state_ready_h ->
  h3_conn st = Some h3 ->
  stream_is_client_initiated sid = true ->
  dict_get (_stream h3) sid = Some (StreamObj s) ->
  ended s = false ->
  logical_id st sid = Some l ->
  handle_event X C id1 id2 (QuicStreamReset sid error_code) st
  = ([ReceiveHttp
        (ReceiveProtocolError (role st) l
           ("stream reset by client (" +:+ error_code_to_str X error_code
            +:+ ")")
           (if Z.eqb error_code H3_REQUEST_CANCELLED
            then CLIENT_CLOSED_REQUEST
            else ReceiveProtocolError_code X (role st)))],
     set_h3_conn
       (Some (mkH3 (_quic h3) (dict_set (_stream h3) sid (BoolObj true))
                (codec_state h3)))
       st,
     Returned tt).
Proof.
  intros Hh Hc Hi Hg He Hl.
  destruct st as [r h cn oh e2q q2e]; simpl in *; subst.
  unfold handle_event, state_ready, on_stream_reset. gen_simpl.
  rewrite Hi, Hg; simpl. rewrite He; simpl.
  match goal with
  | |- context [report C ?e ?s] => rewrite (report_known s e l)
  end.
  - simpl. by destruct r.
  - unfold logical_id in *; simpl. by destruct r.
Qed.

(** In [state_ready], the reset of a stream that is not client-initiated,
    or that the codec's stream table does not know, or whose stream
    object has its [ended] attribute set, yields nothing, returns, and
    leaves the layer as it was. *)
Lemma ignored_stream_reset_is_a_no_op
    st h3 (sid error_code id1 id2 : Z) :
  _handle_event st = state_ready_h ->
  h3_conn st = Some h3 ->
  stream_is_client_initiated sid = false
  \/ dict_get (_stream h3) sid = None
  \/ (exists s, dict_get (_stream h3) sid = Some (StreamObj s)
                /\ ended s = true) ->
  handle_event X C id1 id2 (QuicStreamReset sid error_code) st
  = ([], st, Returned tt).
Proof.
  intros Hh Hc Hcase.
  destruct st as [r h cn oh e2q q2e]; simpl in *; subst.
  unfold handle_event, state_ready, on_stream_reset. gen_simpl.
  destruct (stream_is_client_initiated sid) eqn:Hi; simpl; [|reflexivity].
  destruct Hcase as [Hn | [Hn | (s & Hs & He)]].
  - discriminate.
  - by rewrite Hn.
  - rewrite Hs; simpl. by rewrite He.
Qed.

(** A second reset of the same stream finds [True] in the table, and the
    read of its [ended] attribute fails. *)
Lemma reset_of_overwritten_stream st h3 (sid error_code id1 id2 : Z) (b : bool) :
  _handle_event st = state_ready_h ->
  h3_conn st = Some h3 ->
  stream_is_client_initiated sid = true ->
  dict_get (_stream h3) sid = Some (BoolObj b) ->
  handle_event X C id1 id2 (QuicStreamReset sid error_code) st
  = ([], st, Raised AttributeError).
Proof.
  intros Hh Hc Hi Hg.
  destruct st as [r h cn oh e2q q2e]; simpl in *; subst.
  unfold handle_event, state_ready, on_stream_reset. gen_simpl.
  by rewrite Hi, Hg.
Qed.

(** C5 (the code departs from it).  The reset of an open client-initiated
    stream is reported as the claim says, with one protocol error whose
    code is 499 for "request cancelled" and the role's default otherwise.
    The stream is not marked ended, though: line 210 assigns [True] to
    the table entry instead of to the [ended] attribute of the stream
    object, so the entry is no stream object any more, reading its
    [ended] mark fails, and a second reset of the stream raises
    [AttributeError] where it should be ignored. *)
Theorem C5_reset_replaces_the_stream_object_by_True :
  forall (cn : Connection) (mq : MockQuic) (c : cstate C)
         (recv send : HeadersState) (code id1 id2 : Z),
    let st :=
      mkLayer Http3Server state_ready_h cn
        (Some (mkH3 mq [(0, StreamObj (mkH3Stream false recv send 0))] c))
        ∅ ∅ in
    let o := handle_event X C id1 id2 (QuicStreamReset 0 code) st in
    emitted o
    = [ReceiveHttp
         (RequestProtocolError 0
            ("stream reset by client (" +:+ error_code_to_str X code +:+ ")")
            (if Z.eqb code H3_REQUEST_CANCELLED then 499
             else RequestProtocolError_code X))]
    /\ completion o = Returned tt
    /\ h3_conn (final_state o) = Some (mkH3 mq [(0, BoolObj true)] c)
    /\ completion (attr_stream C ended (BoolObj true) (final_state o))
       = Raised AttributeError
    /\ handle_event X C id1 id2 (QuicStreamReset 0 code) (final_state o)
       = ([], final_state o, Raised AttributeError).
Proof.
  intros. subst o.
  rewrite (reset_of_open_stream st _ 0 code 0 id1 id2
             (mkH3Stream false recv send 0)
             eq_refl eq_refl eq_refl eq_refl eq_refl eq_refl).
  simpl. repeat split; try reflexivity.
Qed.

(** ** Connection closure *)

(** [state_done] yields nothing and changes nothing. *)
Lemma state_done_is_inert st (ev : Event) (id1 id2 : Z) :
  _handle_event st = state_done_h ->
  ev <> Start ->
  handle_event X C id1 id2 ev st = ([], st, Returned tt).
Proof.
  intros Hh Hev. destruct st as [r h cn oh e2q q2e]; simpl in *; subst.
  unfold handle_event. gen_simpl. by destruct ev.
Qed.

(** On a server whose table holds stream objects only, closure reports one
    error per open client-initiated stream, in table order, and the
    handler becomes [state_done]. *)
Lemma closure_reports_on_stream_objects (ce : option ConnectionTerminated) :
  forall (streams : list H3Stream) st,
    role st = Http3Server ->
    get_connection_error (conn st) = ce ->
    for_each C (on_closed_stream C) (map StreamObj streams) st
    = (flat_map (closure_report Http3Server ce) streams, st, Returned tt).
Proof.
  induction streams as [|s streams IH]; intros st Hr Hce; [reflexivity|].
  simpl. unfold on_closed_stream at 1, closure_report at 1. gen_simpl.
  destruct (stream_is_client_initiated (stream_id s)); simpl;
    [destruct (ended s); simpl|].
  - rewrite IH; auto.
  - rewrite Hr, Hce.
    match goal with
    | |- context [report C ?e ?s0] =>
        rewrite (report_known s0 e (stream_id s))
    end.
    + simpl. rewrite IH; auto.
    + unfold logical_id. by rewrite Hr.
  - rewrite IH; auto.
Qed.

(** The closure of a server connection whose table holds stream objects
    only: the reports above, then [state_done]. *)
Lemma closure_of_server_connection st h3 (streams : list H3Stream) (id1 id2 : Z) :
  _handle_event st = state_ready_h ->
  h3_conn st = Some h3 ->
  role st = Http3Server ->
  dict_values (_stream h3) = map StreamObj streams ->
  handle_event X C id1 id2 ConnectionClosed st
  = (flat_map (closure_report Http3Server (get_connection_error (conn st)))
       streams,
     set_handler state_done_h st,
     Returned tt).
Proof.
  intros Hh Hc Hr Hv.
  destruct st as [r h cn oh e2q q2e]; simpl in *; subst.
  unfold handle_event, state_ready, on_connection_closed. gen_simpl.
  rewrite Hv.
  rewrite (closure_reports_on_stream_objects (get_connection_error cn));
    [|reflexivity..].
  simpl. by rewrite app_nil_r.
Qed.

(** C4 (the code departs from it).  After the reset of stream 0, which
    leaves [True] in the stream table, the closure of the connection stops
    at that entry with [AttributeError]: stream 4, client-initiated and
    not ended, gets no protocol error, and the handler is still
    [state_ready], not [state_done].  The defect is that of line 210
    (see C5). *)
Theorem C4_closure_fails_after_a_stream_reset :
  forall (cn : Connection) (mq : MockQuic) (c : cstate C)
         (recv0 send0 recv4 send4 : HeadersState) (code id1 id2 : Z),
    let st :=
      mkLayer Http3Server state_ready_h cn
        (Some (mkH3 mq
                 [(0, StreamObj (mkH3Stream false recv0 send0 0));
                  (4, StreamObj (mkH3Stream false recv4 send4 4))] c))
        ∅ ∅ in
    let o1 := handle_event X C id1 id2 (QuicStreamReset 0 code) st in
    let o2 := handle_event X C id1 id2 ConnectionClosed (final_state o1) in
    completion o1 = Returned tt
    /\ emitted o2 = []
    /\ completion o2 = Raised AttributeError
    /\ _handle_event (final_state o2) = state_ready_h
    /\ h3_conn (final_state o2)
       = Some (mkH3 mq
                 [(0, BoolObj true);
                  (4, StreamObj (mkH3Stream false recv4 send4 4))] c).
Proof.
  intros. subst o2 o1.
  rewrite (reset_of_open_stream st _ 0 code 0 id1 id2
             (mkH3Stream false recv0 send0 0)
             eq_refl eq_refl eq_refl eq_refl eq_refl eq_refl).
  simpl. repeat split; reflexivity.
Qed.

(** ** Outgoing protocol errors *)

(** C2 (the code departs from it).  [Http3Client.send_protocol_error]
    holds a [yield], so calling it as line 190 does runs none of its body.
    For a [RequestProtocolError] the client therefore yields the
    [OpenQuicStream] of the id translation, if the logical id is new, and
    then what [transmit] finds in the queue; no [ResetQuicStream] is
    made, whatever the error code. *)
Theorem C2_client_protocol_error_resets_no_stream :
  forall (cn : Connection) q (ids : list Z) (t : StreamTable) (c : cstate C)
         (e2q q2e : gmap Z Z) (sid code id1 id2 : Z) (message : string),
    let st :=
      mkLayer Http3Client state_ready_h cn
        (Some (mkH3 (mkMockQuic q ids) t c)) e2q q2e in
    let o :=
      handle_event X C id1 id2
        (HttpEv (RequestProtocolError sid message code)) st in
    emitted o
    = match e2q !! sid with
      | Some _ => []
      | None => [OpenQuicStream false]
      end ++ q
    /\ completion o = Blocked
    /\ emitted (Http3Client_send_protocol_error_body C
                  (RequestProtocolError sid message code) st)
       = [ResetQuicStream sid (client_error_code code)].
Proof.
  intros. subst o st.
  unfold handle_event, state_ready, on_http_event, preprocess_incoming_event,
    Http3Client_preprocess_incoming_event.
  gen_simpl.
  destruct (e2q !! sid) as [tid|] eqn:E; simpl;
    unfold try_except_else, send_intent, send_protocol_error,
      generator_object_dropped, set_id_maps;
    gen_simpl;
    (erewrite transmit_run; [|reflexivity]); simpl;
    repeat split; reflexivity.
Qed.

(** ** Calls into the codec *)

Lemma codec_call_run {A}
    (method : cstate C -> StreamTable -> CodecReturn (cstate C) A) st h3 :
  h3_conn st = Some h3 ->
  codec_call C method st
  = ([],
     after_codec_call C st h3 (method (codec_state h3) (_stream h3)),
     returned (method (codec_state h3) (_stream h3))).
Proof.
  intros Hc. destruct st as [r h cn oh e2q q2e]; simpl in *; subst.
  unfold codec_call, after_codec_call. gen_simpl. reflexivity.
Qed.

Lemma after_codec_call_h3 {A} st h3 (r : CodecReturn (cstate C) A) :
  h3_conn (after_codec_call C st h3 r)
  = Some (mkH3 (mkMockQuic
                  (pending_commands (_quic h3)
                   ++ map shim_command (shim_calls r))
                  (available_stream_ids (_quic h3)))
            (stream_table' r) (codec_state' r)).
Proof.
  unfold after_codec_call; simpl. by rewrite apply_shim_calls_queue.
Qed.

Lemma preprocess_known st event (tid new_id : Z) :
  transport_id st (event_stream_id event) = Some tid ->
  preprocess_incoming_event C new_id event st
  = ([], st, Returned (set_stream_id event tid)).
Proof.
  unfold transport_id, preprocess_incoming_event,
    Http3Client_preprocess_incoming_event,
    Http3Connection_preprocess_incoming_event.
  intros H. gen_simpl. destruct (role st); gen_simpl.
  - injection H as <-. by rewrite set_stream_id_same.
  - by rewrite H.
Qed.

Lemma yield_all_run (cs : list Command) st :
  yield_all C cs st = (cs, st, Returned tt).
Proof.
  induction cs as [|c cs IH]; [reflexivity|].
  simpl. gen_simpl. by rewrite IH.
Qed.

Lemma gbind_run {A B} (m : Gen C A) (f : A -> Gen C B) st out st' a :
  m st = (out, st', Returned a) ->
  gbind C m f st = after C out (f a st').
Proof. intros H. unfold gbind. by rewrite H. Qed.

Lemma gbind_raised {A B} (m : Gen C A) (f : A -> Gen C B) st out st' e :
  m st = (out, st', Raised e) ->
  gbind C m f st = (out, st', Raised e).
Proof. intros H. unfold gbind. by rewrite H. Qed.

Lemma gbind_blocked {A B} (m : Gen C A) (f : A -> Gen C B) st out st' :
  m st = (out, st', Blocked) ->
  gbind C m f st = (out, st', Blocked).
Proof. intros H. unfold gbind. by rewrite H. Qed.

(** A send the codec rejects, seen from [send_intent]. *)
Lemma rejected_intent st h3 event (tid : Z) :
  h3_conn st = Some h3 ->
  rejects_intent h3 tid event ->
  send_intent X C (set_stream_id event tid) st
  = (formatter_commands X event,
     after_intent_call X C st h3 tid event,
     Raised H3FrameUnexpected).
Proof.
  intros Hc Hrej.
  destruct event; simpl in *; try contradiction;
    unfold formatter_commands, after_intent_call, send_data, send_headers;
    try destruct (format_h2_request_headers X request) as [cmds hs];
    try destruct (format_h2_response_headers X response) as [cmds hs];
    simpl;
    try (erewrite gbind_run; [|apply yield_all_run]);
    try (erewrite gbind_raised;
         [|rewrite (codec_call_run _ st h3 Hc); rewrite Hrej; reflexivity]);
    try (rewrite (codec_call_run _ st h3 Hc); rewrite Hrej);
    simpl; by rewrite ?app_nil_r.
Qed.

(** C7.  In [state_ready], take an outgoing Data, Headers, Trailers or
    EndOfMessage event whose stream has a transport id already, and a
    codec that rejects the frame kind the event needs on that stream.
    The handler returns, in [state_ready]; it takes nothing out of the
    shim's queue and reports nothing.  All it yields is what the imported
    header formatter yielded while the arguments of [send_headers] were
    evaluated, which is nothing for Data, Trailers and EndOfMessage. *)
Theorem C7_rejected_send_is_swallowed st h3 event (tid id1 id2 : Z) :
  _handle_event st = state_ready_h ->
  h3_conn st = Some h3 ->
  transport_id st (event_stream_id event) = Some tid ->
  rejects_intent h3 tid event ->
  handle_event X C id1 id2 (HttpEv event) st
  = (formatter_commands X event,
     after_intent_call X C st h3 tid event,
     Returned tt)
  /\ _handle_event (after_intent_call X C st h3 tid event) = state_ready_h
  /\ (match event with
      | RequestHeaders _ _ _ | ResponseHeaders _ _ _ => True
      | _ => formatter_commands X event = []
      end).
Proof.
  intros Hh Hc Ht Hrej. split; [|split].
  - unfold handle_event, state_ready.
    erewrite gbind_run; [|unfold get_state; reflexivity].
    rewrite Hh. simpl.
    erewrite gbind_run; [|unfold get_h3; erewrite gbind_run;
                          [|unfold get_state; reflexivity];
                          rewrite Hc; reflexivity].
    simpl. unfold on_http_event.
    erewrite gbind_run; [|apply (preprocess_known st event tid id1 Ht)].
    unfold try_except_else.
    rewrite (rejected_intent st h3 event tid Hc Hrej). simpl.
    by rewrite app_nil_r.
  - destruct event; simpl in *; try contradiction;
      unfold after_codec_call; simpl; exact Hh.
  - by destruct event.
Qed.

(** The status of the error reply: 499 is kept, every other code becomes
    500. *)
Lemma server_error_status_spec (code : Z) :
  server_error_status code
  = if Z.eqb code CLIENT_CLOSED_REQUEST then code else INTERNAL_SERVER_ERROR.
Proof. unfold server_error_status. by destruct (Z.eqb code _). Qed.

(** C6.  In [state_ready] on the server, an outgoing
    [ResponseProtocolError] makes the layer hand the codec a header block
    whose [:status] is the event's code if that is 499 and 500 otherwise,
    with the [server] and [content-type] fields, and then the body
    [format_error status message] with end-of-stream set.  When the codec
    accepts both, the turn yields what was queued before, then the frames
    of the header block, then those of the body. *)
Theorem C6_server_protocol_error_reply
    st h3 (sid code id1 id2 : Z) (message : string) :
  _handle_event st = state_ready_h ->
  h3_conn st = Some h3 ->
  role st = Http3Server ->
  let status := server_error_status code in
  let r1 :=
    H3_send_headers C (codec_state h3) (_stream h3) sid
      [ (":status", bytes_of_int status);
        ("server", MITMPROXY X);
        ("content-type", "text/html") ]
      false in
  let r2 :=
    H3_send_data C (codec_state' r1) (stream_table' r1) sid
      (format_error X status message) true in
  returned r1 = Returned tt ->
  returned r2 = Returned tt ->
  status = (if Z.eqb code 499 then code else 500)
  /\ emitted (handle_event X C id1 id2
                (HttpEv (ResponseProtocolError sid message code)) st)
     = pending_commands (_quic h3)
       ++ map shim_command (shim_calls r1)
       ++ map shim_command (shim_calls r2).
Proof.
  intros Hh Hc Hr status r1 r2 H1 H2.
  split; [apply server_error_status_spec|].
  subst r2 r1 status.
  unfold handle_event, state_ready.
  erewrite gbind_run; [|unfold get_state; reflexivity].
  rewrite Hh. simpl.
  erewrite gbind_run; [|unfold get_h3; erewrite gbind_run;
                        [|unfold get_state; reflexivity];
                        rewrite Hc; reflexivity].
  simpl. unfold on_http_event.
  erewrite gbind_run;
    [|apply (preprocess_known st _ sid id1);
      unfold transport_id; by rewrite Hr].
  simpl. unfold try_except_else, send_intent, send_protocol_error.
  erewrite gbind_run; [|unfold get_state; reflexivity].
  rewrite Hr. simpl. unfold Http3Server_send_protocol_error.
  erewrite gbind_run; [|unfold get_h3; erewrite gbind_run;
                        [|unfold get_state; reflexivity];
                        rewrite Hc; reflexivity].
  simpl. unfold send_headers, send_data, server_error_headers.
  erewrite gbind_run;
    [|rewrite (codec_call_run _ st h3 Hc); rewrite H1; reflexivity].
  simpl. rewrite H2.
  erewrite transmit_run; [|reflexivity].
  simpl. rewrite !apply_shim_calls_queue. simpl.
  by rewrite <- app_assoc.
Qed.

(** ** Incoming header blocks *)

Lemma parse_headers_gives_headers (r : Role) (headers : H3Headers)
    (sid : Z) (stream_ended : bool) (ev : HttpEvent) (l : Z) :
  parse_headers X r headers sid stream_ended = inr ev ->
  is_headers_report l (ReceiveHttp (set_stream_id ev l)) = true
  /\ event_stream_id ev = sid.
Proof.
  destruct r; simpl;
    unfold Http3Server_parse_headers, Http3Client_parse_headers.
  - destruct (parse_h2_request_headers X headers)
      as [e|[[[[[[host port] method] scheme] authority] path] hdrs]];
      [discriminate|].
    intros [= <-]; simpl. by rewrite Z.eqb_refl.
  - destruct (parse_h2_response_headers X headers) as [e|[status hdrs]];
      [discriminate|].
    intros [= <-]; simpl. by rewrite Z.eqb_refl.
Qed.

(** One decoded header block in the loop of lines 232 to 301, on a
    client-initiated stream whose receive state, as the loop reads it, is
    not "after trailers", and whose reports have a logical id.  If the
    role's parser fails with detail [e], the layer records a connection
    error with code [H3_GENERAL_PROTOCOL_ERROR] and a reason ending in
    [e], and yields [CloseConnection].  If it succeeds, the layer reports
    the Headers event.  In both cases an [EndOfMessage] report is the next
    thing yielded if the block came with the end of the stream, and
    nothing else follows. *)
Lemma header_block_is_parsed_or_closes_the_connection
    st h3 (headers : H3Headers) (sid l : Z) (stream_ended : bool)
    (s : H3Stream) :
  h3_conn st = Some h3 ->
  stream_is_client_initiated sid = true ->
  dict_get (_stream h3) sid = Some (StreamObj s) ->
  headers_recv_state s <> AFTER_TRAILERS ->
  logical_id st sid = Some l ->
  let o := on_h3_event X C (HeadersReceived headers sid stream_ended) st in
  let note :=
    Log ("h3_event="
         +:+ repr_h3_event X (HeadersReceived headers sid stream_ended))
      "info" in
  let end_of_message :=
    if stream_ended then [ReceiveHttp (ReceiveEndOfMessage (role st) l)]
    else [] in
  match parse_headers X (role st) headers sid stream_ended with
  | inl e =>
      o = (note :: CloseConnection :: end_of_message,
           set_conn
             (mkConnection
                (Some (mkConnectionTerminated H3_GENERAL_PROTOCOL_ERROR None
                         ("Invalid HTTP/3 request headers: " +:+ e))))
             st,
           Returned tt)
  | inr ev =>
      o = (note :: ReceiveHttp (set_stream_id ev l) :: end_of_message,
           st, Returned tt)
      /\ is_headers_report l (ReceiveHttp (set_stream_id ev l)) = true
  end.
Proof.
  intros Hc Hi Hg Hs Hl o note eom. subst o note eom.
  destruct st as [r h cn oh e2q q2e]; simpl in *; subst.
  unfold on_h3_event. gen_simpl. rewrite Hi. unfold stream_item. gen_simpl.
  rewrite Hg; simpl.
  assert (HeadersState_is (headers_recv_state s) AFTER_TRAILERS = false)
    as -> by (by destruct (headers_recv_state s)).
  destruct (parse_headers X r headers sid stream_ended) as [e|ev] eqn:Hp.
  - gen_simpl. unfold set_connection_error.
    destruct stream_ended; simpl; [|reflexivity].
    match goal with
    | |- context [report C ?e0 ?s0] => rewrite (report_known s0 e0 l)
    end.
    + simpl. by destruct r.
    + unfold logical_id in *; simpl in *. by destruct r.
  - destruct (parse_headers_gives_headers r headers sid stream_ended ev l Hp)
      as [Hrep Hid].
    split; [|exact Hrep].
    match goal with
    | |- context [report C ev ?s0] => rewrite (report_known s0 ev l)
    end.
    + simpl. destruct stream_ended; simpl; [|reflexivity].
      match goal with
      | |- context [report C ?e0 ?s0] => rewrite (report_known s0 e0 l)
      end.
      * simpl. by destruct r.
      * unfold logical_id in *; simpl in *. by destruct r.
    + rewrite Hid. exact Hl.
Qed.

(** ** The id maps of the client *)

Lemma final_state_after {A} (out : list Command) (o : Outcome C A) :
  final_state (after C out o) = final_state o.
Proof. by destruct o as [[out' st'] res]. Qed.

Lemma keeps_gret {A} (a : A) : keeps_maps (gret C a).
Proof. by intros st. Qed.

Lemma keeps_yield (c : Command) : keeps_maps (yield C c).
Proof. by intros st. Qed.

Lemma keeps_raise {A} (e : Exn) : keeps_maps (@raise C A e).
Proof. by intros st. Qed.

Lemma keeps_block {A} : keeps_maps (@block C A).
Proof. by intros st. Qed.

Lemma keeps_get_state : keeps_maps (get_state C).
Proof. by intros st. Qed.

Lemma keeps_modify (f : Layer C -> Layer C) :
  (forall st, maps_of (f st) = maps_of st) -> keeps_maps (modify C f).
Proof. intros H st. apply H. Qed.

Lemma keeps_gbind {A B} (m : Gen C A) (f : A -> Gen C B) :
  keeps_maps m -> (forall a, keeps_maps (f a)) -> keeps_maps (gbind C m f).
Proof.
  intros Hm Hf st. unfold gbind.
  specialize (Hm st). destruct (m st) as [[out st'] [a| |]]; simpl in *;
    try exact Hm.
  rewrite final_state_after. by rewrite Hf.
Qed.

Lemma keeps_try (body handler orelse : Gen C unit) (E : Exn) :
  keeps_maps body -> keeps_maps handler -> keeps_maps orelse ->
  keeps_maps (try_except_else C body E handler orelse).
Proof.
  intros Hb Hh Ho st. unfold try_except_else.
  specialize (Hb st). destruct (body st) as [[out st'] [a|e|]]; simpl in *;
    try exact Hb.
  - rewrite final_state_after. by rewrite Ho.
  - destruct (Exn_eqb e E); [|exact Hb].
    rewrite final_state_after. by rewrite Hh.
Qed.

Lemma keeps_for_each {A} (body : A -> Gen C unit) (l : list A) :
  (forall a, keeps_maps (body a)) -> keeps_maps (for_each C body l).
Proof.
  intros Hb. induction l as [|a l IH]; simpl.
  - apply keeps_gret.
  - apply keeps_gbind; auto.
Qed.

Lemma keeps_yield_all (cs : list Command) : keeps_maps (yield_all C cs).
Proof. intros st. by rewrite yield_all_run. Qed.

Lemma keeps_get_h3 : keeps_maps (get_h3 C).
Proof.
  unfold get_h3. apply keeps_gbind; [apply keeps_get_state|].
  intros st. destruct (h3_conn st); [apply keeps_gret|apply keeps_raise].
Qed.

Lemma keeps_put_h3 (h3 : LayeredH3Connection C) : keeps_maps (put_h3 C h3).
Proof. by apply keeps_modify. Qed.

(** Applies the lemmas above along the structure of a generator. *)
Ltac keeps :=
  repeat first
    [ apply keeps_gret | apply keeps_yield | apply keeps_raise
    | apply keeps_block | apply keeps_get_state | apply keeps_get_h3
    | apply keeps_put_h3 | apply keeps_yield_all
    | apply keeps_modify; intros; reflexivity
    | apply keeps_gbind; [|intros]
    | apply keeps_try
    | apply keeps_for_each; intros
    | match goal with
      | |- keeps_maps (match ?x with _ => _ end) => destruct x
      | |- keeps_maps (if ?x then _ else _) => destruct x
      | |- keeps_maps (let '(_, _) := ?x in _) => destruct x
      | |- keeps_maps (let _ := _ in _) => cbv zeta
      end ].

Lemma keeps_codec_call {A}
    (method : cstate C -> StreamTable -> CodecReturn (cstate C) A) :
  keeps_maps (codec_call C method).
Proof. unfold codec_call. keeps; by intros st. Qed.

Lemma keeps_transmit_loop q : keeps_maps (transmit_loop C q).
Proof. induction q as [|c q IH]; simpl; keeps; exact IH. Qed.

Lemma keeps_transmit : keeps_maps (transmit C).
Proof. unfold transmit. keeps; apply keeps_transmit_loop. Qed.

Lemma keeps_report event : keeps_maps (report C event).
Proof.
  unfold report, postprocess_outgoing_event,
    Http3Client_postprocess_outgoing_event,
    Http3Connection_postprocess_outgoing_event.
  keeps.
Qed.

Lemma keeps_send_intent event : keeps_maps (send_intent X C event).
Proof.
  unfold send_intent, send_protocol_error, Http3Server_send_protocol_error,
    generator_object_dropped, force_after_trailers, stream_item, attr_stream,
    send_data, send_headers.
  destruct event; keeps; try apply keeps_codec_call; keeps.
Qed.

(** The same, with the lemmas on calls, reports and [transmit]. *)
Ltac keeps_all :=
  repeat first
    [ apply keeps_report | apply keeps_codec_call | apply keeps_transmit
    | apply keeps_send_intent | progress keeps ].

Lemma keeps_on_stream_reset (sid code : Z) :
  keeps_maps (on_stream_reset X C sid code).
Proof. unfold on_stream_reset, attr_stream. keeps_all. Qed.

Lemma keeps_on_h3_event (e : H3Event) : keeps_maps (on_h3_event X C e).
Proof. unfold on_h3_event, stream_item, attr_stream. keeps_all. Qed.

Lemma keeps_on_stream_data (ev : Event) (sid : Z) (data : bytes) (es : bool) :
  keeps_maps (on_stream_data X C ev sid data es).
Proof.
  unfold on_stream_data, handle_event_h3.
  apply keeps_gbind; [apply keeps_yield|intros _].
  apply keeps_gbind; [apply keeps_codec_call|intros evs].
  apply keeps_for_each, keeps_on_h3_event.
Qed.

Lemma keeps_on_connection_closed : keeps_maps (on_connection_closed C).
Proof.
  unfold on_connection_closed, on_closed_stream, attr_stream. keeps_all.
Qed.

Lemma keeps_state_start (id1 id2 : Z) (ev : Event) :
  keeps_maps (state_start C id1 id2 ev).
Proof. unfold state_start, start. keeps_all. Qed.

Lemma step_of_keeps {A} (g : Gen C A) (new_id : Z) st :
  keeps_maps g -> maps_step new_id (maps_of st) (maps_of (final_state (g st))).
Proof. intros H. left. apply H. Qed.

Lemma step_gbind {A B} (m : Gen C A) (f : A -> Gen C B) (new_id : Z) st :
  keeps_maps m ->
  (forall a st', maps_step new_id (maps_of st') (maps_of (final_state (f a st')))) ->
  maps_step new_id (maps_of st) (maps_of (final_state (gbind C m f st))).
Proof.
  intros Hm Hf. unfold gbind. specialize (Hm st).
  destruct (m st) as [[out st'] [a| |]]; simpl in *;
    [|left; exact Hm..].
  rewrite final_state_after, <- Hm. apply Hf.
Qed.

Lemma on_http_event_maps st event (new_id : Z) :
  maps_step new_id (maps_of st)
    (maps_of (final_state (on_http_event X C new_id event st))).
Proof.
  unfold on_http_event.
  set (rest := fun ev' => try_except_else C (send_intent X C ev')
                            H3FrameUnexpected (gret C tt) (transmit C)).
  assert (Hrest : forall ev', keeps_maps (rest ev')).
  { intros ev'. unfold rest. apply keeps_try;
      [apply keeps_send_intent|apply keeps_gret|apply keeps_transmit]. }
  destruct st as [r h cn oh e2q q2e].
  unfold preprocess_incoming_event, Http3Client_preprocess_incoming_event,
    Http3Connection_preprocess_incoming_event.
  destruct r; gen_simpl.
  - left. destruct (rest event _) as [[o1 s1] r1] eqn:E1.
    pose proof (Hrest event (mkLayer Http3Server h cn oh e2q q2e)) as Hk.
    rewrite E1 in Hk. exact Hk.
  - destruct (e2q !! event_stream_id event) as [tid|] eqn:El; simpl.
    + left. destruct (rest _ _) as [[o1 s1] r1] eqn:E1.
      pose proof (Hrest (set_stream_id event tid)
                    (mkLayer Http3Client h cn oh e2q q2e)) as Hk.
      rewrite E1 in Hk. exact Hk.
    + right. exists (event_stream_id event). split; [exact El|].
      match goal with
      | |- context [rest ?e' ?s'] =>
          pose proof (Hrest e' s') as Hk;
          destruct (rest e' s') as [[o1 s1] r1] eqn:E1
      end.
      exact Hk.
Qed.

(** What one event does to the id maps. *)
Lemma handle_event_maps st (ev : Event) (id1 id2 : Z) :
  maps_step id1 (maps_of st)
    (maps_of (final_state (handle_event X C id1 id2 ev st))).
Proof.
  unfold handle_event.
  apply step_gbind; [apply keeps_get_state|]. intros st0 st'.
  destruct (_handle_event st0).
  - apply step_of_keeps, keeps_state_start.
  - destruct ev as [|e|sid data es|sid code|]; simpl.
    + by left.
    + apply step_gbind; [apply keeps_get_h3|]. intros _ st''.
      apply on_http_event_maps.
    + apply step_of_keeps.
      apply keeps_gbind; [apply keeps_get_h3|intros _].
      apply keeps_on_stream_data.
    + apply step_of_keeps.
      apply keeps_gbind; [apply keeps_get_h3|intros _].
      apply keeps_on_stream_reset.
    + apply step_of_keeps.
      apply keeps_gbind; [apply keeps_get_h3|intros _].
      apply keeps_on_connection_closed.
  - left. by destruct ev.
Qed.

Lemma inverse_after_insert (e2q q2e : gmap Z Z) (l t : Z) :
  (forall a b, e2q !! a = Some b <-> q2e !! b = Some a) ->
  e2q !! l = None ->
  q2e !! t = None ->
  forall a b, <[l := t]> e2q !! a = Some b <-> <[t := l]> q2e !! b = Some a.
Proof.
  intros Hinv Hl Ht a b. rewrite !lookup_insert_Some. split.
  - intros [[-> ->] | [Hne Hab]]; [by left|right].
    apply Hinv in Hab. split; [|exact Hab]. intros ->. congruence.
  - intros [[-> ->] | [Hne Hba]]; [by left|right].
    apply Hinv in Hba. split; [|exact Hba]. intros ->. congruence.
Qed.

(** A report whose transport id has no logical id raises [KeyError]. *)
Lemma client_postprocess_unknown st event :
  _quic_to_event st !! event_stream_id event = None ->
  Http3Client_postprocess_outgoing_event C event st = ([], st, Raised KeyError).
Proof.
  intros H. unfold Http3Client_postprocess_outgoing_event. gen_simpl.
  by rewrite H.
Qed.

(** C9.  Let the two id maps be inverse to each other before an event,
    and let the id the transport would hand out for a new stream be one
    that has no logical id yet.  After the event, whatever it is and
    however its handler ends, the maps are inverse to each other again,
    every pair they held is still there unchanged, and a report on a
    transport id without a logical id raises [KeyError]. *)
Theorem C9_id_maps_stay_inverse st (ev : Event) (id1 id2 : Z) :
  id_maps_inverse st ->
  _quic_to_event st !! id1 = None ->
  let st' := final_state (handle_event X C id1 id2 ev st) in
  id_maps_inverse st'
  /\ _event_to_quic st ⊆ _event_to_quic st'
  /\ _quic_to_event st ⊆ _quic_to_event st'
  /\ (forall event,
        _quic_to_event st' !! event_stream_id event = None ->
        Http3Client_postprocess_outgoing_event C event st'
        = ([], st', Raised KeyError)).
Proof.
  intros Hinv Hfresh st'.
  split; [|split; [|split]]; [| | |intros; by apply client_postprocess_unknown].
  all: destruct (handle_event_maps st ev id1 id2) as [Hsame | (l & Hl & Hins)];
    fold st' in Hsame || fold st' in Hins;
    unfold maps_of in *; simpl in *.
  - injection Hsame as He Hq. unfold id_maps_inverse. by rewrite He, Hq.
  - injection Hins as He Hq. unfold id_maps_inverse. rewrite He, Hq.
    by apply inverse_after_insert.
  - injection Hsame as He Hq. by rewrite He.
  - injection Hins as He Hq. rewrite He. by apply insert_subseteq.
  - injection Hsame as He Hq. by rewrite Hq.
  - injection Hins as He Hq. rewrite Hq. by apply insert_subseteq.
Qed.

(** * Further properties of the module *)

(** ** [MockQuic] as a buffer *)

(** X1.  Whatever the codec asks of the shim, each [close] and each
    [send_stream_data] leaves exactly one command at the end of the queue,
    in the order of the calls, and the pool of stream ids is not
    touched. *)
Theorem X1_shim_calls_are_queued_in_order (cs : list ShimCall)
    (cn : Connection) (mq : MockQuic) :
  pending_commands (snd (apply_shim_calls (cn, mq) cs))
  = pending_commands mq ++ map shim_command cs
  /\ available_stream_ids (snd (apply_shim_calls (cn, mq) cs))
     = available_stream_ids mq
  /\ length (pending_commands (snd (apply_shim_calls (cn, mq) cs)))
     = (length (pending_commands mq) + length cs)%nat.
Proof.
  rewrite apply_shim_calls_queue. simpl.
  repeat split. by rewrite length_app, length_map.
Qed.

(** X2.  After any calls of the codec to the shim, the error recorded on
    the connection is that of the last [close] among them; without a
    [close] it is the one recorded before. *)
Theorem X2_last_close_is_the_recorded_error (cs : list ShimCall) :
  forall (cn : Connection) (mq : MockQuic),
    get_connection_error (fst (apply_shim_calls (cn, mq) cs))
    = match last_close cs with
      | Some ce => Some ce
      | None => get_connection_error cn
      end.
Proof.
  unfold apply_shim_calls.
  induction cs as [|c cs IH]; intros cn mq; [reflexivity|].
  simpl. destruct c as [ec ft rp|i d e]; simpl; rewrite IH;
    by destruct (last_close cs).
Qed.

(** ** [state_start] and the pool of stream ids *)

(** X3.  [Start] on a fresh layer runs the constructor of the codec on a
    new shim.  If the constructor raises or blocks, so does the handler:
    nothing is yielded, no codec connection is stored and the handler is
    still [state_start].  If it returns, the handler yields two
    [OpenQuicStream] commands for bidirectional streams and nothing else,
    stores the connection and moves to [state_ready]; the shim's queue
    then holds what the constructor queued and its pool the two ids the
    transport answered.  Such a pool hands the ids out in that order to
    requests of their own direction; a request for the other direction
    fails the assertion of line 85, and a request on the empty pool
    blocks. *)
Theorem X3_start_fills_the_pool_in_answer_order :
  forall (r : Role) (cn : Connection) (e2q q2e : gmap Z Z) (id1 id2 : Z),
    let k := H3_init C in
    let cn' := fst (apply_shim_calls (cn, mkMockQuic [] []) (shim_calls k)) in
    let o :=
      handle_event X C id1 id2 Start (mkLayer r state_start_h cn None e2q q2e) in
    match returned k with
    | Returned _ =>
        o = ([OpenQuicStream false; OpenQuicStream false],
             mkLayer r state_ready_h cn'
               (Some (mkH3 (mkMockQuic (map shim_command (shim_calls k))
                              [id1; id2])
                        (stream_table' k) (codec_state' k)))
               e2q q2e,
             Returned tt)
    | Raised e => o = ([], mkLayer r state_start_h cn' None e2q q2e, Raised e)
    | Blocked => o = ([], mkLayer r state_start_h cn' None e2q q2e, Blocked)
    end
    /\ MockQuic_get_next_available_stream_id (stream_is_unidirectional id1)
         (mkMockQuic [] [id1; id2])
       = Returned (id1, mkMockQuic [] [id2])
    /\ MockQuic_get_next_available_stream_id
         (negb (stream_is_unidirectional id1)) (mkMockQuic [] [id1; id2])
       = Raised AssertionError
    /\ MockQuic_get_next_available_stream_id (stream_is_unidirectional id2)
         (mkMockQuic [] [id2])
       = Returned (id2, mkMockQuic [] [])
    /\ (forall u, MockQuic_get_next_available_stream_id u (mkMockQuic [] [])
                  = Blocked).
Proof.
  intros. subst o cn' k. split.
  - unfold handle_event, state_start, start. gen_simpl.
    pose proof (apply_shim_calls_queue (shim_calls (H3_init C)) cn
                  (mkMockQuic [] [])) as Hq.
    destruct (returned (H3_init C)) as [[]|e|]; simpl; try reflexivity.
    rewrite Hq. reflexivity.
  - unfold MockQuic_get_next_available_stream_id. simpl.
    repeat split; try reflexivity.
    + by destruct (stream_is_unidirectional id1).
    + by destruct (stream_is_unidirectional id1).
    + by destruct (stream_is_unidirectional id2).
Qed.

(** ** The three states *)

Lemma deliver_from_done (events : list (Event * (Z * Z))) st :
  _handle_event st = state_done_h ->
  Forall (fun e => fst e <> Start) events ->
  deliver X C events st = ([], st, Returned tt).
Proof.
  intros Hh Hev. induction Hev as [|[ev [id1 id2]] events Hne _ IH];
    [reflexivity|].
  simpl. rewrite (state_done_is_inert st ev id1 id2 Hh Hne).
  by rewrite IH.
Qed.

(** X4.  [state_done] absorbs: from it, any sequence of data, reset,
    closure and outgoing events is handled to its end, yields nothing and
    leaves the layer as it is. *)
Theorem X4_done_absorbs_every_event
    (events : list (Event * (Z * Z))) st :
  _handle_event st = state_done_h ->
  Forall (fun e => fst e <> Start) events ->
  deliver X C events st = ([], st, Returned tt).
Proof. apply deliver_from_done. Qed.

(** *** Parts of the layer a generator leaves alone *)

Section Frame.

Context {T : Type} (f : Layer C -> T).
Hypothesis f_conn : forall c st, f (set_conn c st) = f st.
Hypothesis f_h3 : forall h st, f (set_h3_conn h st) = f st.
Hypothesis f_maps : forall a b st, f (set_id_maps a b st) = f st.

Lemma preserves_gret {A} (a : A) : preserves f (gret C a).
Proof. by intros st. Qed.

Lemma preserves_yield (c : Command) : preserves f (yield C c).
Proof. by intros st. Qed.

Lemma preserves_raise {A} (e : Exn) : preserves f (@raise C A e).
Proof. by intros st. Qed.

Lemma preserves_block {A} : preserves f (@block C A).
Proof. by intros st. Qed.

Lemma preserves_get_state : preserves f (get_state C).
Proof. by intros st. Qed.

Lemma preserves_modify (m : Layer C -> Layer C) :
  (forall st, f (m st) = f st) -> preserves f (modify C m).
Proof. intros H st. apply H. Qed.

Lemma preserves_gbind {A B} (m : Gen C A) (k : A -> Gen C B) :
  preserves f m -> (forall a, preserves f (k a)) -> preserves f (gbind C m k).
Proof.
  intros Hm Hk st. unfold gbind.
  specialize (Hm st). destruct (m st) as [[out st'] [a| |]]; simpl in *;
    try exact Hm.
  rewrite final_state_after. by rewrite Hk.
Qed.

Lemma preserves_try (body handler orelse : Gen C unit) (E : Exn) :
  preserves f body -> preserves f handler -> preserves f orelse ->
  preserves f (try_except_else C body E handler orelse).
Proof.
  intros Hb Hh Ho st. unfold try_except_else.
  specialize (Hb st). destruct (body st) as [[out st'] [a|e|]]; simpl in *;
    try exact Hb.
  - rewrite final_state_after. by rewrite Ho.
  - destruct (Exn_eqb e E); [|exact Hb].
    rewrite final_state_after. by rewrite Hh.
Qed.

Lemma preserves_for_each {A} (body : A -> Gen C unit) (l : list A) :
  (forall a, preserves f (body a)) -> preserves f (for_each C body l).
Proof.
  intros Hb. induction l as [|a l IH]; simpl.
  - apply preserves_gret.
  - apply preserves_gbind; auto.
Qed.

Lemma preserves_yield_all (cs : list Command) : preserves f (yield_all C cs).
Proof. intros st. by rewrite yield_all_run. Qed.

Lemma preserves_get_h3 : preserves f (get_h3 C).
Proof.
  unfold get_h3. apply preserves_gbind; [apply preserves_get_state|].
  intros st. destruct (h3_conn st); [apply preserves_gret|apply preserves_raise].
Qed.

Lemma preserves_put_h3 (h3 : LayeredH3Connection C) : preserves f (put_h3 C h3).
Proof. apply preserves_modify. intros st. apply f_h3. Qed.

Ltac frame :=
  repeat first
    [ apply preserves_gret | apply preserves_yield | apply preserves_raise
    | apply preserves_block | apply preserves_get_state
    | apply preserves_get_h3 | apply preserves_put_h3
    | apply preserves_yield_all
    | apply preserves_modify; intros; first [apply f_conn|apply f_h3|apply f_maps]
    | apply preserves_gbind; [|intros]
    | apply preserves_try
    | apply preserves_for_each; intros
    | match goal with
      | |- preserves f (match ?x with _ => _ end) => destruct x
      | |- preserves f (if ?x then _ else _) => destruct x
      | |- preserves f (let '(_, _) := ?x in _) => destruct x
      | |- preserves f (let _ := _ in _) => cbv zeta
      end ].

Lemma preserves_codec_call {A}
    (method : cstate C -> StreamTable -> CodecReturn (cstate C) A) :
  preserves f (codec_call C method).
Proof. unfold codec_call. frame; by intros st. Qed.

Lemma preserves_transmit_loop q : preserves f (transmit_loop C q).
Proof. induction q as [|c q IH]; simpl; frame; exact IH. Qed.

Lemma preserves_transmit : preserves f (transmit C).
Proof. unfold transmit. frame; apply preserves_transmit_loop. Qed.

Lemma preserves_report event : preserves f (report C event).
Proof.
  unfold report, postprocess_outgoing_event,
    Http3Client_postprocess_outgoing_event,
    Http3Connection_postprocess_outgoing_event.
  frame.
Qed.

Lemma preserves_send_intent event : preserves f (send_intent X C event).
Proof.
  unfold send_intent, send_protocol_error, Http3Server_send_protocol_error,
    generator_object_dropped, force_after_trailers, stream_item, attr_stream,
    send_data, send_headers.
  destruct event; frame; try apply preserves_codec_call; frame.
Qed.

Lemma preserves_on_http_event (new_id : Z) event :
  preserves f (on_http_event X C new_id event).
Proof.
  unfold on_http_event, preprocess_incoming_event,
    Http3Client_preprocess_incoming_event,
    Http3Connection_preprocess_incoming_event.
  frame;
    first [apply preserves_send_intent | apply preserves_transmit
          | apply preserves_transmit_loop].
Qed.

Lemma preserves_on_stream_reset (sid code : Z) :
  preserves f (on_stream_reset X C sid code).
Proof.
  unfold on_stream_reset, attr_stream. frame; apply preserves_report.
Qed.

Lemma preserves_on_h3_event (e : H3Event) : preserves f (on_h3_event X C e).
Proof.
  unfold on_h3_event, stream_item, attr_stream.
  repeat first [apply preserves_report | progress frame].
Qed.

Lemma preserves_on_stream_data (ev : Event) (sid : Z) (data : bytes)
    (es : bool) :
  preserves f (on_stream_data X C ev sid data es).
Proof.
  unfold on_stream_data, handle_event_h3.
  apply preserves_gbind; [apply preserves_yield|intros _].
  apply preserves_gbind; [apply preserves_codec_call|intros evs].
  apply preserves_for_each, preserves_on_h3_event.
Qed.

Lemma preserves_on_closed_stream (o : PyObj) :
  preserves f (on_closed_stream C o).
Proof.
  unfold on_closed_stream, attr_stream.
  repeat first [apply preserves_report | progress frame].
Qed.

End Frame.

Lemma after_nil {A} (o : Outcome C A) : after C [] o = o.
Proof. by destruct o as [[out st'] res]. Qed.

Lemma handle_event_dispatch st (ev : Event) (id1 id2 : Z) :
  handle_event X C id1 id2 ev st
  = match _handle_event st with
    | state_start_h => state_start C id1 id2 ev st
    | state_ready_h => state_ready X C id1 ev st
    | state_done_h => state_done C ev st
    end.
Proof.
  unfold handle_event, gbind, get_state. rewrite after_nil.
  by destruct (_handle_event st).
Qed.

Lemma get_h3_some {A} (k : LayeredH3Connection C -> Gen C A) st h3 :
  h3_conn st = Some h3 -> gbind C (get_h3 C) k st = k h3 st.
Proof.
  intros Hc. unfold get_h3, gbind, get_state. simpl. rewrite Hc. simpl.
  by rewrite !after_nil.
Qed.

Lemma get_h3_none {A} (k : LayeredH3Connection C -> Gen C A) st :
  h3_conn st = None ->
  gbind C (get_h3 C) k st = ([], st, Raised AssertionError).
Proof.
  intros Hc. unfold get_h3, gbind, get_state. simpl. by rewrite Hc.
Qed.

(** X5.  The handler only moves forward.  [state_done] is final: every
    event leaves the layer as it is.  [state_ready] is left only by
    [ConnectionClosed], and only for [state_done]; every other event
    leaves the handler at [state_ready], whether its handling returns,
    raises or blocks.  [state_start] is left only by [Start], and only for
    [state_ready]. *)
Theorem X5_handler_only_moves_forward st (ev : Event) (id1 id2 : Z) :
  let st' := final_state (handle_event X C id1 id2 ev st) in
  match _handle_event st with
  | state_done_h => st' = st
  | state_ready_h =>
      _handle_event st' = state_ready_h
      \/ (ev = ConnectionClosed /\ _handle_event st' = state_done_h)
  | state_start_h =>
      _handle_event st' = state_start_h
      \/ (ev = Start /\ _handle_event st' = state_ready_h)
  end.
Proof.
  assert (Hf : forall (g : Gen C unit) s, preserves _handle_event g ->
            _handle_event (final_state (g s)) = _handle_event s)
    by (intros g s Hg; apply Hg).
  intros st'. subst st'. rewrite handle_event_dispatch.
  destruct st as [r h cn oh e2q q2e]; simpl. destruct h.
  - (* state_start *)
    destruct ev; try (by left).
    destruct oh; [by left|].
    unfold state_start, start. gen_simpl.
    destruct (returned (H3_init C)) as [[]|e|]; simpl;
      [right; split; reflexivity|by left..].
  - (* state_ready *)
    destruct ev as [|e|sid data es|sid code|]; simpl.
    + by left.
    + left. rewrite Hf; [reflexivity|].
      apply preserves_gbind; [by apply preserves_get_h3|intros _].
      by apply preserves_on_http_event.
    + left. rewrite Hf; [reflexivity|].
      apply preserves_gbind; [by apply preserves_get_h3|intros _].
      by apply preserves_on_stream_data.
    + left. rewrite Hf; [reflexivity|].
      apply preserves_gbind; [by apply preserves_get_h3|intros _].
      by apply preserves_on_stream_reset.
    + destruct oh as [h3|]; [|by left].
      erewrite get_h3_some by reflexivity. unfold on_connection_closed.
      erewrite get_h3_some by reflexivity.
      set (loop := for_each C (on_closed_stream C) (dict_values (_stream h3))).
      set (s := mkLayer r state_ready_h cn (Some h3) e2q q2e).
      pose proof (Hf loop s) as Hloop.
      destruct (loop s) as [[out2 st2] res2] eqn:E2.
      simpl in Hloop.
      assert (_handle_event st2 = state_ready_h) as Hst2.
      { apply Hloop. apply preserves_for_each; intros o.
        by apply preserves_on_closed_stream. }
      destruct res2 as [[]| |].
      * rewrite (gbind_run _ _ _ _ _ _ E2). right. split; reflexivity.
      * rewrite (gbind_raised _ _ _ _ _ _ E2). left. exact Hst2.
      * rewrite (gbind_blocked _ _ _ _ _ E2). left. exact Hst2.
  - by destruct ev.
Qed.

(** *** What a generator yields *)

Section Emits.

Context (P : Command -> Prop).

Lemma emitted_after {A} (out : list Command) (o : Outcome C A) :
  emitted (after C out o) = out ++ emitted o.
Proof. by destruct o as [[out' st'] res]. Qed.

Lemma emits_gret {A} (a : A) : emits_only P (gret C a).
Proof. intros st. constructor. Qed.

Lemma emits_yield (c : Command) : P c -> emits_only P (yield C c).
Proof. intros H st. by repeat constructor. Qed.

Lemma emits_raise {A} (e : Exn) : emits_only P (@raise C A e).
Proof. intros st. constructor. Qed.

Lemma emits_get_state : emits_only P (get_state C).
Proof. intros st. constructor. Qed.

Lemma emits_modify (m : Layer C -> Layer C) : emits_only P (modify C m).
Proof. intros st. constructor. Qed.

Lemma emits_gbind {A B} (m : Gen C A) (k : A -> Gen C B) :
  emits_only P m -> (forall a, emits_only P (k a)) -> emits_only P (gbind C m k).
Proof.
  intros Hm Hk st. unfold gbind.
  specialize (Hm st). destruct (m st) as [[out st'] [a| |]]; simpl in *;
    try exact Hm.
  rewrite emitted_after. apply Forall_app. split; [exact Hm|apply Hk].
Qed.

Lemma emits_for_each {A} (body : A -> Gen C unit) (l : list A) :
  (forall a, emits_only P (body a)) -> emits_only P (for_each C body l).
Proof.
  intros Hb. induction l as [|a l IH]; simpl.
  - apply emits_gret.
  - apply emits_gbind; auto.
Qed.

Lemma emits_get_h3 : emits_only P (get_h3 C).
Proof.
  unfold get_h3. apply emits_gbind; [apply emits_get_state|].
  intros st. destruct (h3_conn st); [apply emits_gret|apply emits_raise].
Qed.

Lemma emits_codec_call {A}
    (method : cstate C -> StreamTable -> CodecReturn (cstate C) A) :
  emits_only P (codec_call C method).
Proof.
  unfold codec_call.
  apply emits_gbind; [apply emits_get_h3|intros h3].
  apply emits_gbind; [apply emits_get_state|intros st].
  apply emits_gbind; [apply emits_modify|intros _].
  apply emits_gbind; [apply emits_modify|intros _].
  intros st'. constructor.
Qed.

Hypothesis P_report : forall e, P (ReceiveHttp e).
Hypothesis P_log : forall m l, P (Log m l).
Hypothesis P_close : P CloseConnection.

Lemma emits_report event : emits_only P (report C event).
Proof.
  unfold report, postprocess_outgoing_event,
    Http3Client_postprocess_outgoing_event,
    Http3Connection_postprocess_outgoing_event.
  apply emits_gbind; [|intros e; apply emits_yield, P_report].
  apply emits_gbind; [apply emits_get_state|intros st].
  destruct (role st); [apply emits_gret|].
  apply emits_gbind; [apply emits_get_state|intros st'].
  destruct (_ !! _); [apply emits_gret|apply emits_raise].
Qed.

Ltac emits :=
  repeat first
    [ apply emits_gret | apply emits_raise | apply emits_get_state
    | apply emits_get_h3 | apply emits_modify | apply emits_report
    | apply emits_codec_call
    | apply emits_yield; first [apply P_report|apply P_log|apply P_close]
    | apply emits_gbind; [|intros]
    | apply emits_for_each; intros
    | match goal with
      | |- emits_only P (match ?x with _ => _ end) => destruct x
      | |- emits_only P (if ?x then _ else _) => destruct x
      | |- emits_only P (let _ := _ in _) => cbv zeta
      end ].

Lemma emits_on_stream_reset (sid code : Z) :
  emits_only P (on_stream_reset X C sid code).
Proof. unfold on_stream_reset, attr_stream, put_h3. emits. Qed.

Lemma emits_on_h3_event (e : H3Event) : emits_only P (on_h3_event X C e).
Proof. unfold on_h3_event, stream_item, attr_stream. emits. Qed.

Lemma emits_on_stream_data (ev : Event) (sid : Z) (data : bytes) (es : bool) :
  emits_only P (on_stream_data X C ev sid data es).
Proof.
  unfold on_stream_data, handle_event_h3.
  apply emits_gbind; [apply emits_yield, P_log|intros _].
  apply emits_gbind; [apply emits_codec_call|intros evs].
  apply emits_for_each, emits_on_h3_event.
Qed.

Lemma emits_on_connection_closed : emits_only P (on_connection_closed C).
Proof. unfold on_connection_closed, on_closed_stream, attr_stream. emits. Qed.

End Emits.

(** X6.  Whatever the state of the layer and of the codec, an event of
    the transport (stream data, stream reset, connection closed) makes
    the layer yield only notes, reports and [CloseConnection]: it never
    opens, writes to or resets a stream in answer. *)
Theorem X6_transport_events_touch_no_stream st (ev : Event) (id1 id2 : Z) :
  is_transport_event ev ->
  Forall is_local_command (emitted (handle_event X C id1 id2 ev st)).
Proof.
  intros Hev. rewrite handle_event_dispatch.
  assert (Hr : forall e, is_local_command (ReceiveHttp e)) by (intros; exact I).
  assert (Hl : forall m l, is_local_command (Log m l)) by (intros; exact I).
  assert (Hc : is_local_command CloseConnection) by exact I.
  destruct (_handle_event st); destruct ev; try contradiction;
    try (simpl; constructor).
  - apply (emits_gbind is_local_command); [apply emits_get_h3|intros _].
    by apply emits_on_stream_data.
  - apply (emits_gbind is_local_command); [apply emits_get_h3|intros _].
    by apply emits_on_stream_reset.
  - apply (emits_gbind is_local_command); [apply emits_get_h3|intros _].
    by apply emits_on_connection_closed.
Qed.

(** ** Decoded events *)

(** X7.  Body data decoded on a client-initiated stream is reported under
    the stream's logical id, followed at once by [EndOfMessage] if the
    data came with the end of the stream.  The stream table is not
    consulted and the layer is left as it is. *)
Theorem X7_data_is_reported_then_end_of_message
    st (data : bytes) (sid l : Z) (stream_ended : bool) :
  stream_is_client_initiated sid = true ->
  logical_id st sid = Some l ->
  on_h3_event X C (DataReceived data sid stream_ended) st
  = (Log ("h3_event=" +:+ repr_h3_event X (DataReceived data sid stream_ended))
       "info"
     :: ReceiveHttp (ReceiveData (role st) l data)
     :: end_of_message_report (role st) l stream_ended,
     st, Returned tt).
Proof.
  intros Hi Hl. unfold on_h3_event, end_of_message_report.
  destruct st as [r h cn oh e2q q2e]; simpl in *. gen_simpl. rewrite Hi.
  match goal with
  | |- context [report C ?e0 ?s0] => rewrite (report_known s0 e0 l)
  end; [|unfold logical_id in *; simpl in *; by destruct r].
  simpl. destruct stream_ended; simpl; [|by destruct r].
  match goal with
  | |- context [report C ?e0 ?s0] => rewrite (report_known s0 e0 l)
  end; [|unfold logical_id in *; simpl in *; by destruct r].
  simpl. by destruct r.
Qed.

(** X8.  A header block decoded on a client-initiated stream whose receive
    state is "after trailers" is reported as [Trailers], with the fields
    as decoded.  The role's header parser is not run, so no header block
    can close the connection at this point; the layer is left as it
    is. *)
Theorem X8_trailers_are_reported_unparsed
    st h3 (headers : H3Headers) (sid l : Z) (stream_ended : bool)
    (s : H3Stream) :
  h3_conn st = Some h3 ->
  stream_is_client_initiated sid = true ->
  dict_get (_stream h3) sid = Some (StreamObj s) ->
  headers_recv_state s = AFTER_TRAILERS ->
  logical_id st sid = Some l ->
  on_h3_event X C (HeadersReceived headers sid stream_ended) st
  = (Log ("h3_event="
          +:+ repr_h3_event X (HeadersReceived headers sid stream_ended))
       "info"
     :: ReceiveHttp (ReceiveTrailers (role st) l headers)
     :: end_of_message_report (role st) l stream_ended,
     st, Returned tt).
Proof.
  intros Hc Hi Hg Hs Hl. unfold on_h3_event, end_of_message_report.
  destruct st as [r h cn oh e2q q2e]; simpl in *; subst.
  gen_simpl. rewrite Hi. unfold stream_item. gen_simpl. rewrite Hg; simpl.
  rewrite Hs; simpl.
  match goal with
  | |- context [report C ?e0 ?s0] => rewrite (report_known s0 e0 l)
  end; [|unfold logical_id in *; simpl in *; by destruct r].
  simpl. destruct stream_ended; simpl; [|by destruct r].
  match goal with
  | |- context [report C ?e0 ?s0] => rewrite (report_known s0 e0 l)
  end; [|unfold logical_id in *; simpl in *; by destruct r].
  simpl. by destruct r.
Qed.

(** X9.  A decoded event of a stream that is not client-initiated, or of
    a kind other than data and headers, is dropped: the layer yields the
    note of the event and the note that it is ignored, at level "info"
    for a client-initiated stream and "debug" otherwise, reports nothing
    and stays as it is. *)
Theorem X9_untranslated_events_are_only_noted st (e : H3Event) :
  is_ignored_h3_event e = true ->
  on_h3_event X C e st
  = ([ Log ("h3_event=" +:+ repr_h3_event X e) "info";
       Log ("Ignored unsupported H3 event: " +:+ repr_h3_event X e)
         (if stream_is_client_initiated (h3_event_stream_id e)
          then "info" else "debug") ],
     st, Returned tt).
Proof.
  intros Hig. unfold on_h3_event. gen_simpl.
  destruct e as [d i se|hs i se|i]; simpl in *;
    try (destruct (stream_is_client_initiated i); [discriminate|]);
    reflexivity.
Qed.

(** ** Stream resets, continued *)

Lemma dict_get_set_ne (d : StreamTable) (k j : Z) (v : PyObj) :
  j <> k -> dict_get (dict_set d k v) j = dict_get d j.
Proof.
  intros Hne. induction d as [|[k' v'] d IH]; simpl.
  - destruct (Z.eqb_spec j k); [contradiction|reflexivity].
  - destruct (Z.eqb_spec k k') as [->|Hk]; simpl.
    + destruct (Z.eqb_spec j k'); [contradiction|reflexivity].
    + destruct (Z.eqb_spec j k'); [reflexivity|exact IH].
Qed.

Lemma dict_get_set_eq (d : StreamTable) (k : Z) (v : PyObj) :
  dict_get (dict_set d k v) k = Some v.
Proof.
  induction d as [|[k' v'] d IH]; simpl.
  - by rewrite Z.eqb_refl.
  - destruct (Z.eqb_spec k k') as [->|Hk]; simpl.
    + by rewrite Z.eqb_refl.
    + destruct (Z.eqb_spec k k'); [contradiction|exact IH].
Qed.

Lemma dict_set_keys (d : StreamTable) (k : Z) (v v0 : PyObj) :
  dict_get d k = Some v0 -> map fst (dict_set d k v) = map fst d.
Proof.
  induction d as [|[k' v'] d IH]; simpl; [discriminate|].
  destruct (Z.eqb_spec k k') as [->|Hk]; simpl; [reflexivity|].
  intros H. by rewrite IH.
Qed.

(** X10.  On the client, the reset of an open client-initiated stream
    whose transport id has no logical id raises [KeyError] and reports
    nothing; by then the stream's table entry has been overwritten with
    [True]. *)
Theorem X10_reset_of_unmapped_stream_raises_after_the_overwrite
    st h3 (sid error_code id1 id2 : Z) (s : H3Stream) :
  _handle_event st = state_ready_h ->
  h3_conn st = Some h3 ->
  role st = Http3Client ->
  stream_is_client_initiated sid = true ->
  dict_get (_stream h3) sid = Some (StreamObj s) ->
  ended s = false ->
  _quic_to_event st !! sid = None ->
  handle_event X C id1 id2 (QuicStreamReset sid error_code) st
  = ([],
     set_h3_conn
       (Some (mkH3 (_quic h3) (dict_set (_stream h3) sid (BoolObj true))
                (codec_state h3)))
       st,
     Raised KeyError).
Proof.
  intros Hh Hc Hr Hi Hg He Hq.
  destruct st as [r h cn oh e2q q2e]; simpl in *; subst.
  unfold handle_event, state_ready, on_stream_reset. gen_simpl.
  rewrite Hi, Hg; simpl. rewrite He; simpl.
  match goal with
  | |- context [report C ?e ?s0] => rewrite (report_unknown s0 e)
  end; [reflexivity|].
  unfold logical_id; simpl. exact Hq.
Qed.

(** X11.  The reset of an open client-initiated stream changes the table
    entry of that stream and nothing else: the other entries and the
    order of the table, the shim with its queue and pool, the codec's
    private state, the recorded connection error, the id maps and the
    handler are as before. *)
Theorem X11_reset_changes_one_table_entry_only
    st h3 (sid error_code l id1 id2 : Z) (s : H3Stream) :
  _handle_event st = state_ready_h ->
  h3_conn st = Some h3 ->
  stream_is_client_initiated sid = true ->
  dict_get (_stream h3) sid = Some (StreamObj s) ->
  ended s = false ->
  logical_id st sid = Some l ->
  let st' :=
    final_state (handle_event X C id1 id2 (QuicStreamReset sid error_code) st) in
  match h3_conn st' with
  | Some h3' =>
      dict_get (_stream h3') sid = Some (BoolObj true)
      /\ (forall j, j <> sid ->
            dict_get (_stream h3') j = dict_get (_stream h3) j)
      /\ map fst (_stream h3') = map fst (_stream h3)
      /\ _quic h3' = _quic h3
      /\ codec_state h3' = codec_state h3
  | None => False
  end
  /\ conn st' = conn st
  /\ maps_of st' = maps_of st
  /\ _handle_event st' = state_ready_h.
Proof.
  intros Hh Hc Hi Hg He Hl st'. subst st'.
  rewrite (reset_of_open_stream st h3 sid error_code l id1 id2 s
             Hh Hc Hi Hg He Hl).
  simpl. repeat split; try done.
  - apply dict_get_set_eq.
  - intros j Hj. by apply dict_get_set_ne.
  - by apply (dict_set_keys _ _ _ (StreamObj s)).
Qed.

(** ** Stream ids on the client *)

Lemma set_stream_id_twice event (i j : Z) :
  set_stream_id (set_stream_id event i) j = set_stream_id event j.
Proof. by destruct event. Qed.

(** X12.  Translating an outgoing event to its transport id and
    translating back gives the event again: with id maps that are inverse
    to each other, [postprocess_outgoing_event] applied to the result of
    [preprocess_incoming_event] returns the original event, on either
    role and whether or not a stream had to be opened. *)
Theorem X12_postprocess_undoes_preprocess st event (new_id : Z) :
  id_maps_inverse st ->
  let o := preprocess_incoming_event C new_id event st in
  match completion o with
  | Returned e' =>
      postprocess_outgoing_event C e' (final_state o)
      = ([], final_state o, Returned event)
  | _ => False
  end.
Proof.
  intros Hinv o. subst o.
  unfold preprocess_incoming_event, postprocess_outgoing_event,
    Http3Client_preprocess_incoming_event,
    Http3Client_postprocess_outgoing_event,
    Http3Connection_preprocess_incoming_event,
    Http3Connection_postprocess_outgoing_event, id_maps_inverse in *.
  destruct st as [r h cn oh e2q q2e]; simpl in *. gen_simpl.
  destruct r; simpl; [reflexivity|].
  destruct (e2q !! event_stream_id event) as [t|] eqn:El; simpl.
  - rewrite event_stream_id_set. apply Hinv in El. rewrite El.
    by rewrite set_stream_id_twice, set_stream_id_same.
  - rewrite event_stream_id_set, lookup_insert_eq.
    by rewrite set_stream_id_twice, set_stream_id_same.
Qed.

(** X13.  On the client, the first outgoing event of a logical id opens
    one bidirectional stream and is sent on the id the transport answers;
    every later event of that logical id is sent on the same transport id
    and opens nothing, whatever id the transport would answer then. *)
Theorem X13_a_logical_id_keeps_its_transport_id
    st (e1 e2 : HttpEvent) (t t2 : Z) :
  role st = Http3Client ->
  _event_to_quic st !! event_stream_id e1 = None ->
  event_stream_id e2 = event_stream_id e1 ->
  let st1 := final_state (preprocess_incoming_event C t e1 st) in
  preprocess_incoming_event C t e1 st
  = ([OpenQuicStream false], st1, Returned (set_stream_id e1 t))
  /\ preprocess_incoming_event C t2 e2 st1
     = ([], st1, Returned (set_stream_id e2 t)).
Proof.
  intros Hr Hn He st1. subst st1.
  unfold preprocess_incoming_event, Http3Client_preprocess_incoming_event.
  destruct st as [r h cn oh e2q q2e]; simpl in *; subst. gen_simpl.
  rewrite Hn. simpl. split; [reflexivity|].
  by rewrite He, lookup_insert_eq.
Qed.

(** ** Outgoing events the codec accepts *)

Lemma accepted_intent st h3 event (tid : Z) (r : CodecReturn (cstate C) unit) :
  h3_conn st = Some h3 ->
  intent_call X C h3 tid event = Some r ->
  returned r = Returned tt ->
  forces_trailers event = false ->
  send_intent X C (set_stream_id event tid) st
  = (formatter_commands X event, after_codec_call C st h3 r, Returned tt).
Proof.
  intros Hc Hcall Hret Hforce.
  destruct event; simpl in *; try discriminate;
    injection Hcall as <-;
    unfold formatter_commands, send_data, send_headers;
    try destruct (format_h2_request_headers X request) as [cmds hs];
    try destruct (format_h2_response_headers X response) as [cmds hs];
    simpl in *; subst;
    try (erewrite gbind_run; [|apply yield_all_run]);
    try (erewrite gbind_run;
         [|rewrite (codec_call_run _ st h3 Hc); rewrite Hret; reflexivity]);
    try (rewrite (codec_call_run _ st h3 Hc); rewrite Hret);
    simpl; by rewrite ?app_nil_r.
Qed.

Lemma ready_http_event st h3 event (tid id1 id2 : Z) :
  _handle_event st = state_ready_h ->
  h3_conn st = Some h3 ->
  transport_id st (event_stream_id event) = Some tid ->
  handle_event X C id1 id2 (HttpEv event) st
  = try_except_else C (send_intent X C (set_stream_id event tid))
      H3FrameUnexpected (gret C tt) (transmit C) st.
Proof.
  intros Hh Hc Ht. rewrite handle_event_dispatch, Hh. simpl.
  rewrite (get_h3_some _ st h3 Hc). unfold on_http_event.
  erewrite gbind_run; [|apply (preprocess_known st event tid id1 Ht)].
  by rewrite after_nil.
Qed.

(** X14.  In [state_ready], an outgoing Data, Trailers or EndOfMessage
    event, or a Headers event without end of stream, that the codec
    accepts makes the layer yield the commands of the header formatter,
    then everything that was in the shim's queue before, then the
    commands the codec queued for this event, in that order.  The queue
    is empty afterwards, the table and private state are the codec's,
    and the handler does not return. *)
Theorem X14_accepted_send_flushes_the_whole_queue
    st h3 event (tid id1 id2 : Z) (r : CodecReturn (cstate C) unit) :
  _handle_event st = state_ready_h ->
  h3_conn st = Some h3 ->
  transport_id st (event_stream_id event) = Some tid ->
  intent_call X C h3 tid event = Some r ->
  returned r = Returned tt ->
  forces_trailers event = false ->
  let o := handle_event X C id1 id2 (HttpEv event) st in
  emitted o
  = formatter_commands X event
    ++ pending_commands (_quic h3) ++ map shim_command (shim_calls r)
  /\ completion o = Blocked
  /\ h3_conn (final_state o)
     = Some (mkH3 (mkMockQuic [] (available_stream_ids (_quic h3)))
               (stream_table' r) (codec_state' r)).
Proof.
  intros Hh Hc Ht Hcall Hret Hforce o. subst o.
  rewrite (ready_http_event st h3 event tid id1 id2 Hh Hc Ht).
  unfold try_except_else.
  rewrite (accepted_intent st h3 event tid r Hc Hcall Hret Hforce).
  erewrite transmit_run; [|apply after_codec_call_h3].
  simpl. repeat split.
Qed.

Lemma force_after_trailers_run st h3 (sid : Z) (s : H3Stream) :
  h3_conn st = Some h3 ->
  dict_get (_stream h3) sid = Some (StreamObj s) ->
  force_after_trailers C sid st
  = ([],
     set_h3_conn
       (Some (mkH3 (_quic h3)
                (dict_set (_stream h3) sid
                   (StreamObj (mkH3Stream (ended s) (headers_recv_state s)
                                 AFTER_TRAILERS (stream_id s))))
                (codec_state h3)))
       st,
     Returned tt).
Proof.
  intros Hc Hg. destruct st as [r h cn oh e2q q2e]; simpl in *; subst.
  unfold force_after_trailers, stream_item. gen_simpl. by rewrite Hg.
Qed.

(** X15.  In [state_ready], a Headers event with end of stream that the
    codec accepts is flushed like any accepted event, and the layer then
    sets the send state of the stream to "after trailers" in the codec's
    table, leaving the stream's other attributes alone: the codec will
    see the stream as finished for sending.  The stream must be in the
    codec's table as a stream object after the call. *)
Theorem X15_headers_with_end_of_stream_finish_the_send_side
    st h3 event (tid id1 id2 : Z) (r : CodecReturn (cstate C) unit)
    (s : H3Stream) :
  _handle_event st = state_ready_h ->
  h3_conn st = Some h3 ->
  transport_id st (event_stream_id event) = Some tid ->
  intent_call X C h3 tid event = Some r ->
  returned r = Returned tt ->
  forces_trailers event = true ->
  dict_get (stream_table' r) tid = Some (StreamObj s) ->
  let o := handle_event X C id1 id2 (HttpEv event) st in
  let s' :=
    mkH3Stream (ended s) (headers_recv_state s) AFTER_TRAILERS (stream_id s) in
  emitted o
  = formatter_commands X event
    ++ pending_commands (_quic h3) ++ map shim_command (shim_calls r)
  /\ completion o = Blocked
  /\ h3_conn (final_state o)
     = Some (mkH3 (mkMockQuic [] (available_stream_ids (_quic h3)))
               (dict_set (stream_table' r) tid (StreamObj s'))
               (codec_state' r))
  /\ dict_get (dict_set (stream_table' r) tid (StreamObj s')) tid
     = Some (StreamObj s').
Proof.
  intros Hh Hc Ht Hcall Hret Hforce Hg o s'. subst o.
  rewrite (ready_http_event st h3 event tid id1 id2 Hh Hc Ht).
  unfold try_except_else.
  assert (send_intent X C (set_stream_id event tid) st
          = (formatter_commands X event,
             set_h3_conn
               (Some (mkH3 (mkMockQuic
                              (pending_commands (_quic h3)
                               ++ map shim_command (shim_calls r))
                              (available_stream_ids (_quic h3)))
                        (dict_set (stream_table' r) tid (StreamObj s'))
                        (codec_state' r)))
               (after_codec_call C st h3 r),
             Returned tt)) as ->.
  { destruct event; simpl in *; try discriminate; subst end_stream;
      injection Hcall as <-;
      unfold formatter_commands, send_headers;
      try destruct (format_h2_request_headers X request) as [cmds hs];
      try destruct (format_h2_response_headers X response) as [cmds hs];
      simpl in *;
      (erewrite gbind_run; [|apply yield_all_run]);
      (erewrite gbind_run;
       [|rewrite (codec_call_run _ st h3 Hc); rewrite Hret; reflexivity]);
      simpl;
      (erewrite force_after_trailers_run;
       [|apply after_codec_call_h3|exact Hg]);
      simpl; by rewrite ?app_nil_r. }
  erewrite transmit_run; [|reflexivity].
  simpl. repeat split. apply dict_get_set_eq.
Qed.

(** X16.  When the codec accepts the header block of the server's error
    reply and rejects its body, the rejection is swallowed like any
    other: the turn yields nothing and returns.  The frames of the header
    block are not withdrawn; they stay in the shim's queue, behind what
    was there, until an accepted outgoing event flushes it. *)
Theorem X16_half_sent_error_reply_stays_queued
    st h3 (sid code id1 id2 : Z) (message : string) :
  _handle_event st = state_ready_h ->
  h3_conn st = Some h3 ->
  role st = Http3Server ->
  let status := server_error_status code in
  let r1 :=
    H3_send_headers C (codec_state h3) (_stream h3) sid
      (server_error_headers X status) false in
  let r2 :=
    H3_send_data C (codec_state' r1) (stream_table' r1) sid
      (format_error X status message) true in
  returned r1 = Returned tt ->
  returned r2 = Raised H3FrameUnexpected ->
  let o :=
    handle_event X C id1 id2
      (HttpEv (ResponseProtocolError sid message code)) st in
  emitted o = []
  /\ completion o = Returned tt
  /\ h3_conn (final_state o)
     = Some (mkH3 (mkMockQuic
                     (pending_commands (_quic h3)
                      ++ map shim_command (shim_calls r1)
                      ++ map shim_command (shim_calls r2))
                     (available_stream_ids (_quic h3)))
               (stream_table' r2) (codec_state' r2)).
Proof.
  intros Hh Hc Hr status r1 r2 H1 H2 o. subst o r2 r1 status.
  rewrite (ready_http_event st h3 _ sid id1 id2 Hh Hc);
    [|unfold transport_id; by rewrite Hr].
  unfold try_except_else, send_intent, send_protocol_error.
  simpl.
  erewrite gbind_run; [|unfold get_state; reflexivity].
  rewrite Hr. simpl. unfold Http3Server_send_protocol_error.
  rewrite (get_h3_some _ st h3 Hc).
  unfold send_headers, send_data.
  erewrite gbind_run;
    [|rewrite (codec_call_run _ st h3 Hc); rewrite H1; reflexivity].
  simpl. rewrite H2. simpl.
  repeat split.
  rewrite !apply_shim_calls_queue. simpl. by rewrite <- app_assoc.
Qed.

(** ** Connection closure, continued *)

Lemma on_closed_stream_run st (s : H3Stream) :
  (is_open_client_stream s = true -> is_Some (logical_id st (stream_id s))) ->
  on_closed_stream C (StreamObj s) st
  = (closure_report_for (role st) (logical_id st)
       (get_connection_error (conn st)) s,
     st, Returned tt).
Proof.
  intros Hs.
  unfold on_closed_stream, closure_report_for, is_open_client_stream in *.
  gen_simpl.
  destruct (stream_is_client_initiated (stream_id s)); simpl;
    [|reflexivity].
  destruct (ended s); simpl; [reflexivity|].
  destruct (Hs eq_refl) as [l Hl]. rewrite Hl.
  match goal with
  | |- context [report C ?e ?s0] => rewrite (report_known s0 e l)
  end; [|by destruct (role st)].
  simpl. by destruct (role st).
Qed.

Lemma closure_loop_run (streams : list H3Stream) st :
  Forall (fun s => is_open_client_stream s = true ->
                   is_Some (logical_id st (stream_id s))) streams ->
  for_each C (on_closed_stream C) (map StreamObj streams) st
  = (flat_map (closure_report_for (role st) (logical_id st)
                 (get_connection_error (conn st)))
       streams,
     st, Returned tt).
Proof.
  induction 1 as [|s streams Hs _ IH]; [reflexivity|].
  simpl. rewrite (gbind_run _ _ _ _ _ _ (on_closed_stream_run st s Hs)).
  by rewrite IH.
Qed.

Lemma closure_run st h3 (streams : list H3Stream) (id1 id2 : Z) :
  _handle_event st = state_ready_h ->
  h3_conn st = Some h3 ->
  dict_values (_stream h3) = map StreamObj streams ->
  Forall (fun s => is_open_client_stream s = true ->
                   is_Some (logical_id st (stream_id s))) streams ->
  handle_event X C id1 id2 ConnectionClosed st
  = (flat_map (closure_report_for (role st) (logical_id st)
                 (get_connection_error (conn st)))
       streams,
     set_handler state_done_h st,
     Returned tt).
Proof.
  intros Hh Hc Hv Hl. rewrite handle_event_dispatch, Hh. simpl.
  rewrite (get_h3_some _ st h3 Hc). unfold on_connection_closed.
  rewrite (get_h3_some _ st h3 Hc). rewrite Hv.
  erewrite gbind_run; [|apply closure_loop_run, Hl].
  simpl. by rewrite app_nil_r.
Qed.

(** X17.  In [state_ready], with a stream table that holds stream objects
    only, [ConnectionClosed] reports one protocol error for each
    client-initiated stream that is not ended, in the order of the table
    and under the stream's logical id, and nothing for the other streams.
    Message and code are those of the error recorded on the connection,
    or "Connection closed." and [APPLICATION_ERROR] if none is recorded.
    The handler returns and is [state_done] from then on.  On the client
    every reported stream must have a logical id. *)
Theorem X17_closure_reports_each_open_stream_once
    st h3 (streams : list H3Stream) (id1 id2 : Z) :
  _handle_event st = state_ready_h ->
  h3_conn st = Some h3 ->
  dict_values (_stream h3) = map StreamObj streams ->
  Forall (fun s => is_open_client_stream s = true ->
                   is_Some (logical_id st (stream_id s))) streams ->
  let o := handle_event X C id1 id2 ConnectionClosed st in
  o = (flat_map (closure_report_for (role st) (logical_id st)
                   (get_connection_error (conn st)))
         streams,
       set_handler state_done_h st,
       Returned tt)
  /\ length (emitted o)
     = length (filter (fun s => is_open_client_stream s = true) streams).
Proof.
  intros Hh Hc Hv Hl o. subst o.
  rewrite (closure_run st h3 streams id1 id2 Hh Hc Hv Hl).
  split; [reflexivity|]. unfold emitted; simpl.
  clear Hv. induction Hl as [|s streams Hs _ IH]; [reflexivity|].
  change (flat_map ?f (s :: streams)) with (f s ++ flat_map f streams).
  rewrite length_app, IH, filter_cons.
  unfold closure_report_for at 1.
  destruct (is_open_client_stream s) eqn:Ho.
  - destruct (Hs eq_refl) as [l ->]. by rewrite decide_True.
  - by rewrite decide_False.
Qed.

(** X18.  Closure is reported once.  After the [ConnectionClosed] of X17,
    whatever data, reset, closure or outgoing events follow are handled
    without a further command: the whole sequence yields the reports of
    the first closure and nothing more. *)
Theorem X18_closure_is_reported_once
    st h3 (streams : list H3Stream) (id1 id2 : Z)
    (later : list (Event * (Z * Z))) :
  _handle_event st = state_ready_h ->
  h3_conn st = Some h3 ->
  dict_values (_stream h3) = map StreamObj streams ->
  Forall (fun s => is_open_client_stream s = true ->
                   is_Some (logical_id st (stream_id s))) streams ->
  Forall (fun e => fst e <> Start) later ->
  deliver X C ((ConnectionClosed, (id1, id2)) :: later) st
  = (flat_map (closure_report_for (role st) (logical_id st)
                 (get_connection_error (conn st)))
       streams,
     set_handler state_done_h st,
     Returned tt).
Proof.
  intros Hh Hc Hv Hl Hlater. simpl.
  rewrite (closure_run st h3 streams id1 id2 Hh Hc Hv Hl).
  rewrite deliver_from_done; [|reflexivity|exact Hlater].
  simpl. by rewrite app_nil_r.
Qed.

Lemma parse_failure_run st h3 (headers : H3Headers) (sid : Z)
    (s : H3Stream) (e : string) :
  h3_conn st = Some h3 ->
  stream_is_client_initiated sid = true ->
  dict_get (_stream h3) sid = Some (StreamObj s) ->
  headers_recv_state s <> AFTER_TRAILERS ->
  parse_headers X (role st) headers sid false = inl e ->
  on_h3_event X C (HeadersReceived headers sid false) st
  = ([ Log ("h3_event=" +:+ repr_h3_event X (HeadersReceived headers sid false))
         "info";
       CloseConnection ],
     set_conn
       (mkConnection
          (Some (mkConnectionTerminated H3_GENERAL_PROTOCOL_ERROR None
                   ("Invalid HTTP/3 request headers: " +:+ e))))
       st,
     Returned tt).
Proof.
  intros Hc Hi Hg Hs Hp.
  destruct st as [r h cn oh e2q q2e]; simpl in *; subst.
  unfold on_h3_event. gen_simpl. rewrite Hi. unfold stream_item. gen_simpl.
  rewrite Hg; simpl.
  assert (HeadersState_is (headers_recv_state s) AFTER_TRAILERS = false)
    as -> by (by destruct (headers_recv_state s)).
  by rewrite Hp.
Qed.

(** X19.  A header block the parser rejects decides what the closure of
    the connection reports.  After such a block, [ConnectionClosed]
    reports every open client-initiated stream with the code
    [H3_GENERAL_PROTOCOL_ERROR] and the message "Invalid HTTP/3 request
    headers: " followed by the parser's detail, the stream of the
    rejected block among them. *)
Theorem X19_rejected_headers_name_the_closure_error
    st h3 (streams : list H3Stream) (headers : H3Headers) (sid id1 id2 : Z)
    (s : H3Stream) (e : string) :
  _handle_event st = state_ready_h ->
  h3_conn st = Some h3 ->
  dict_values (_stream h3) = map StreamObj streams ->
  Forall (fun s => is_open_client_stream s = true ->
                   is_Some (logical_id st (stream_id s))) streams ->
  stream_is_client_initiated sid = true ->
  dict_get (_stream h3) sid = Some (StreamObj s) ->
  headers_recv_state s <> AFTER_TRAILERS ->
  parse_headers X (role st) headers sid false = inl e ->
  let st1 :=
    final_state (on_h3_event X C (HeadersReceived headers sid false) st) in
  handle_event X C id1 id2 ConnectionClosed st1
  = (flat_map
       (closure_report_for (role st) (logical_id st)
          (Some (mkConnectionTerminated H3_GENERAL_PROTOCOL_ERROR None
                   ("Invalid HTTP/3 request headers: " +:+ e))))
       streams,
     set_handler state_done_h st1,
     Returned tt).
Proof.
  intros Hh Hc Hv Hl Hi Hg Hs Hp st1. subst st1.
  rewrite (parse_failure_run st h3 headers sid s e Hc Hi Hg Hs Hp). simpl.
  rewrite (closure_run _ h3 streams id1 id2); try assumption.
  reflexivity.
Qed.

(** ** Further edge cases *)

(** X20.  On the server, an outgoing [RequestProtocolError] fails the
    assertion of line 379.  The exception is not the one the handler
    swallows: it leaves the handler, nothing is yielded, nothing is
    handed to the codec and the layer is as before. *)
Theorem X20_server_refuses_request_side_errors
    st h3 (sid code id1 id2 : Z) (message : string) :
  _handle_event st = state_ready_h ->
  h3_conn st = Some h3 ->
  role st = Http3Server ->
  handle_event X C id1 id2 (HttpEv (RequestProtocolError sid message code)) st
  = ([], st, Raised AssertionError).
Proof.
  intros Hh Hc Hr.
  rewrite (ready_http_event st h3 _ sid id1 id2 Hh Hc);
    [|unfold transport_id; by rewrite Hr].
  destruct st as [r h cn oh e2q q2e]; simpl in *; subst.
  reflexivity.
Qed.

Lemma h3_conn_after_on_h3_event (e : H3Event) :
  preserves h3_conn (on_h3_event X C e).
Proof.
  unfold on_h3_event, stream_item, attr_stream.
  repeat first
    [ apply preserves_report | apply preserves_gret | apply preserves_raise
    | apply preserves_yield | apply preserves_get_state
    | apply preserves_get_h3
    | apply preserves_modify; intros; reflexivity
    | apply preserves_gbind; [|intros]
    | match goal with
      | |- preserves _ (match ?x with _ => _ end) => destruct x
      | |- preserves _ (if ?x then _ else _) => destruct x
      | |- preserves _ (let _ := _ in _) => cbv zeta
      end ].
Qed.

(** X21.  Handling received stream data never flushes the shim.  Whatever
    the codec decodes and however the reporting ends, the queue
    afterwards is the queue before followed by the commands the codec
    queued while decoding, and table and private state are as the codec
    left them.  With X6, those commands are not sent in this turn. *)
Theorem X21_received_data_leaves_the_queue_unsent
    st h3 (sid id1 id2 : Z) (data : bytes) (end_stream : bool) :
  _handle_event st = state_ready_h ->
  h3_conn st = Some h3 ->
  let r :=
    H3_handle_event C (codec_state h3) (_stream h3) sid data end_stream in
  h3_conn (final_state
             (handle_event X C id1 id2
                (QuicStreamDataReceived sid data end_stream) st))
  = Some (mkH3 (mkMockQuic
                  (pending_commands (_quic h3)
                   ++ map shim_command (shim_calls r))
                  (available_stream_ids (_quic h3)))
            (stream_table' r) (codec_state' r)).
Proof.
  intros Hh Hc r. rewrite handle_event_dispatch, Hh. simpl.
  rewrite (get_h3_some _ st h3 Hc). unfold on_stream_data.
  unfold gbind at 1, yield at 1. rewrite final_state_after.
  unfold handle_event_h3.
  unfold gbind at 1. rewrite (codec_call_run _ st h3 Hc). fold r.
  destruct (returned r) as [evs| |]; simpl;
    try apply after_codec_call_h3.
  rewrite final_state_after.
  rewrite (preserves_for_each h3_conn (on_h3_event X C) evs
             h3_conn_after_on_h3_event).
  apply after_codec_call_h3.
Qed.

(** ** The claims that fail through the defects above *)

Lemma ready_stream_data st h3 (sid id1 id2 : Z) (data : bytes)
    (end_stream : bool) (evs : list H3Event) :
  _handle_event st = state_ready_h ->
  h3_conn st = Some h3 ->
  let r :=
    H3_handle_event C (codec_state h3) (_stream h3) sid data end_stream in
  returned r = Returned evs ->
  handle_event X C id1 id2 (QuicStreamDataReceived sid data end_stream) st
  = after C
      [Log ("recvd data: event="
            +:+ repr_event X (QuicStreamDataReceived sid data end_stream))
         "info"]
      (for_each C (on_h3_event X C) evs (after_codec_call C st h3 r)).
Proof.
  intros Hh Hc r Hr. rewrite handle_event_dispatch, Hh. simpl.
  rewrite (get_h3_some _ st h3 Hc). unfold on_stream_data.
  unfold gbind at 1, yield at 1. f_equal.
  unfold handle_event_h3.
  erewrite gbind_run;
    [|rewrite (codec_call_run _ st h3 Hc); fold r; rewrite Hr; reflexivity].
  by rewrite after_nil.
Qed.

(** C1 (the code departs from it).  A server in [state_ready] holds the
    open stream 0.  The header block of a request arrives on stream 4 and
    is reported; the client resets stream 0, which is reported as a
    protocol error; the connection closes.  The closure handler reaches
    the entry of stream 0, which line 210 has overwritten with [True], and
    raises [AttributeError] before it looks at stream 4.  Stream 4 has
    had its Headers report and gets neither an end of message nor a
    protocol error; the handler is still [state_ready], and delivering the
    closure again changes nothing.  The defect is that of line 210 (see
    C5). *)
Theorem C1_reset_then_closure_starves_a_started_stream
    st h3 (data : bytes) (headers : H3Headers) (s0 s4 : H3Stream)
    (ev : HttpEvent) (code id1 id2 : Z) :
  _handle_event st = state_ready_h ->
  h3_conn st = Some h3 ->
  role st = Http3Server ->
  let r := H3_handle_event C (codec_state h3) (_stream h3) 4 data false in
  returned r = Returned [HeadersReceived headers 4 false] ->
  stream_table' r = [(0, StreamObj s0); (4, StreamObj s4)] ->
  ended s0 = false ->
  ended s4 = false ->
  stream_id s4 = 4 ->
  headers_recv_state s4 <> AFTER_TRAILERS ->
  parse_headers X Http3Server headers 4 false = inr ev ->
  let o1 :=
    handle_event X C id1 id2 (QuicStreamDataReceived 4 data false) st in
  let o2 :=
    handle_event X C id1 id2 (QuicStreamReset 0 code) (final_state o1) in
  let o3 := handle_event X C id1 id2 ConnectionClosed (final_state o2) in
  count_commands (is_headers_report 4) (emitted o1) = 1%nat
  /\ count_commands (is_terminal_report 4)
       (emitted o1 ++ emitted o2 ++ emitted o3)
     = 0%nat
  /\ completion o3 = Raised AttributeError
  /\ _handle_event (final_state o3) = state_ready_h
  /\ handle_event X C id1 id2 ConnectionClosed (final_state o3)
     = ([], final_state o3, Raised AttributeError).
Proof.
  intros Hh Hc Hr r Hret Htab He0 He4 Hid4 Hrecv Hp o1 o2 o3.
  subst o3 o2 o1.
  rewrite (ready_stream_data st h3 4 id1 id2 data false _ Hh Hc Hret).
  fold r.
  set (st1 := after_codec_call C st h3 r).
  assert (Hc1 : h3_conn st1
                = Some (mkH3 (mkMockQuic
                                (pending_commands (_quic h3)
                                 ++ map shim_command (shim_calls r))
                                (available_stream_ids (_quic h3)))
                          [(0, StreamObj s0); (4, StreamObj s4)]
                          (codec_state' r)))
    by (unfold st1; rewrite after_codec_call_h3; by rewrite Htab).
  assert (Hr1 : role st1 = Http3Server) by exact Hr.
  assert (Hh1 : _handle_event st1 = state_ready_h) by exact Hh.
  pose proof (header_block_is_parsed_or_closes_the_connection st1 _ headers
                4 4 false s4 Hc1 eq_refl eq_refl Hrecv) as Hblock.
  cbv zeta in Hblock. rewrite Hr1, Hp in Hblock.
  destruct Hblock as [Hblock Hrep];
    [unfold logical_id; by rewrite Hr1|].
  simpl. erewrite gbind_run; [|exact Hblock]. simpl.
  cbn [final_state fst snd].
  rewrite (reset_of_open_stream st1 _ 0 code 0 id1 id2 s0 Hh1 Hc1
             eq_refl eq_refl He0);
    [|unfold logical_id; by rewrite Hr1].
  cbn [final_state fst snd].
  set (st2 := set_h3_conn _ st1).
  assert (Hclose : handle_event X C id1 id2 ConnectionClosed st2
                   = ([], st2, Raised AttributeError)).
  { rewrite handle_event_dispatch.
    assert (_handle_event st2 = state_ready_h) as -> by exact Hh.
    simpl. erewrite get_h3_some by reflexivity. unfold on_connection_closed.
    erewrite get_h3_some by reflexivity. reflexivity. }
  rewrite !Hclose. cbn [final_state emitted completion fst snd].
  rewrite !Hclose.
  assert (Hev : exists req, ev = RequestHeaders 4 req false).
  { revert Hp. simpl. unfold Http3Server_parse_headers.
    destruct (parse_h2_request_headers X headers)
      as [e|[[[[[[host port] method] scheme] authority] path] hdrs]];
      [discriminate|].
    intros [= <-]. eauto. }
  destruct Hev as [req ->]. rewrite Hr1. simpl.
  repeat split; try reflexivity. exact Hh1.
Qed.

(** C10 (the code departs from it).  A stream the layer has marked as
    ended after a reset is not ignored by the next reset.  Line 210 has
    put [True] in the place of the stream object, so the guard of line 206
    fails on the read of [ended]: the second reset raises
    [AttributeError] where it should yield nothing and return.  The defect
    is that of line 210 (see C5). *)
Theorem C10_reset_of_a_reset_stream_raises :
  forall (cn : Connection) (mq : MockQuic) (c : cstate C)
         (recv send : HeadersState) (code code' id1 id2 : Z),
    let st :=
      mkLayer Http3Server state_ready_h cn
        (Some (mkH3 mq [(0, StreamObj (mkH3Stream false recv send 0))] c))
        ∅ ∅ in
    let o1 := handle_event X C id1 id2 (QuicStreamReset 0 code) st in
    let o2 :=
      handle_event X C id1 id2 (QuicStreamReset 0 code') (final_state o1) in
    completion o1 = Returned tt
    /\ count_commands (is_terminal_report 0) (emitted o1) = 1%nat
    /\ o2 = ([], final_state o1, Raised AttributeError)
    /\ o2 <> ([], final_state o1, Returned tt).
Proof.
  intros. subst o2 o1.
  rewrite (reset_of_open_stream st _ 0 code 0 id1 id2
             (mkH3Stream false recv send 0)
             eq_refl eq_refl eq_refl eq_refl eq_refl eq_refl).
  simpl. repeat split; try reflexivity. discriminate.
Qed.

Lemma trailers_block_run st h3 (headers : H3Headers) (sid l : Z)
    (stream_ended : bool) (s : H3Stream) :
  h3_conn st = Some h3 ->
  stream_is_client_initiated sid = true ->
  dict_get (_stream h3) sid = Some (StreamObj s) ->
  headers_recv_state s = AFTER_TRAILERS ->
  logical_id st sid = Some l ->
  on_h3_event X C (HeadersReceived headers sid stream_ended) st
  = (Log ("h3_event="
          +:+ repr_h3_event X (HeadersReceived headers sid stream_ended))
       "info"
     :: ReceiveHttp (ReceiveTrailers (role st) l headers)
     :: end_of_message_report (role st) l stream_ended,
     st, Returned tt).
Proof.
  intros Hc Hi Hg Hs Hl. unfold on_h3_event, end_of_message_report.
  destruct st as [r h cn oh e2q q2e]; simpl in *; subst.
  gen_simpl. rewrite Hi. unfold stream_item. gen_simpl. rewrite Hg; simpl.
  rewrite Hs; simpl.
  match goal with
  | |- context [report C ?e0 ?s0] => rewrite (report_known s0 e0 l)
  end; [|unfold logical_id in *; simpl in *; by destruct r].
  simpl. destruct stream_ended; simpl; [|by destruct r].
  match goal with
  | |- context [report C ?e0 ?s0] => rewrite (report_known s0 e0 l)
  end; [|unfold logical_id in *; simpl in *; by destruct r].
  simpl. by destruct r.
Qed.

(** C8 (the code departs from it).  A message whose header block and
    trailers arrive in one chunk: the codec decodes both blocks, and only
    then does the loop of lines 232 to 301 read the stream's receive
    state, which is "after trailers" by now.  The message's own header
    block is therefore reported as [Trailers].  The role's parser is not
    run on it: no Headers event is reported for the stream, and a header
    block the parser would reject does not close the connection.  The
    trailers are reported as a second [Trailers] event, and the end of the
    message after them. *)
Theorem C8_headers_decoded_with_trailers_are_not_parsed
    st h3 (sid l id1 id2 : Z) (data : bytes) (headers trailers : H3Headers)
    (s : H3Stream) :
  _handle_event st = state_ready_h ->
  h3_conn st = Some h3 ->
  stream_is_client_initiated sid = true ->
  logical_id st sid = Some l ->
  let r := H3_handle_event C (codec_state h3) (_stream h3) sid data true in
  returned r
  = Returned [HeadersReceived headers sid false;
              HeadersReceived trailers sid true] ->
  dict_get (stream_table' r) sid = Some (StreamObj s) ->
  headers_recv_state s = AFTER_TRAILERS ->
  let o :=
    handle_event X C id1 id2 (QuicStreamDataReceived sid data true) st in
  o = ([ Log ("recvd data: event="
              +:+ repr_event X (QuicStreamDataReceived sid data true))
           "info";
         Log ("h3_event=" +:+ repr_h3_event X (HeadersReceived headers sid false))
           "info";
         ReceiveHttp (ReceiveTrailers (role st) l headers);
         Log ("h3_event=" +:+ repr_h3_event X (HeadersReceived trailers sid true))
           "info";
         ReceiveHttp (ReceiveTrailers (role st) l trailers);
         ReceiveHttp (ReceiveEndOfMessage (role st) l) ],
       after_codec_call C st h3 r,
       Returned tt)
  /\ count_commands (is_headers_report l) (emitted o) = 0%nat
  /\ ~ In CloseConnection (emitted o).
Proof.
  intros Hh Hc Hi Hl r Hret Hg Hs o.
  assert (Ho : o = ([ Log ("recvd data: event="
              +:+ repr_event X (QuicStreamDataReceived sid data true))
           "info";
         Log ("h3_event=" +:+ repr_h3_event X (HeadersReceived headers sid false))
           "info";
         ReceiveHttp (ReceiveTrailers (role st) l headers);
         Log ("h3_event=" +:+ repr_h3_event X (HeadersReceived trailers sid true))
           "info";
         ReceiveHttp (ReceiveTrailers (role st) l trailers);
         ReceiveHttp (ReceiveEndOfMessage (role st) l) ],
       after_codec_call C st h3 r,
       Returned tt)).
  { subst o.
    rewrite (ready_stream_data st h3 sid id1 id2 data true _ Hh Hc Hret).
    fold r. set (st1 := after_codec_call C st h3 r).
    assert (Hc1 : h3_conn st1
                  = Some (mkH3 (mkMockQuic
                                  (pending_commands (_quic h3)
                                   ++ map shim_command (shim_calls r))
                                  (available_stream_ids (_quic h3)))
                            (stream_table' r) (codec_state' r)))
      by apply after_codec_call_h3.
    assert (Hl1 : logical_id st1 sid = Some l) by exact Hl.
    simpl.
    erewrite gbind_run;
      [|apply (trailers_block_run st1 _ headers sid l false s Hc1 Hi Hg Hs Hl1)].
    erewrite gbind_run;
      [|apply (trailers_block_run st1 _ trailers sid l true s Hc1 Hi Hg Hs Hl1)].
    reflexivity. }
  rewrite Ho. split; [reflexivity|]. unfold emitted; simpl. split.
  - unfold count_commands. simpl. by destruct (role st).
  - intros Hin. simpl in Hin.
    destruct (role st); simpl in Hin; intuition discriminate.
Qed.

End Properties.

(** * Runs on concrete input *)

(** An outgoing event the codec accepts: body data on a stream whose
    response headers are sent.  The frame is yielded, and the handler does
    not return. *)
Example accepted_send_blocks_the_handler :
  let st :=
    Sample.ready Http3Server
      [(0, StreamObj (mkH3Stream true AFTER_HEADERS AFTER_HEADERS 0))] []
      ∅ ∅ in
  let o :=
    handle_event Sample.externals Sample.codec 8 8
      (HttpEv (ResponseData 0 "body")) st in
  emitted o = [SendQuicStreamData 0 "DATA body" false]
  /\ completion o = Blocked.
Proof. split; reflexivity. Qed.

(** The reset of a stream whose object the codec has marked ended. *)
Lemma ignored_stream_reset_example :
  let st :=
    Sample.ready Http3Server [(0, StreamObj (Sample.finished_stream 0))] []
      ∅ ∅ in
  handle_event Sample.externals Sample.codec 8 8
    (QuicStreamReset 0 H3_REQUEST_CANCELLED) st
  = ([], st, Returned tt).
Proof.
  intros st.
  apply (ignored_stream_reset_is_a_no_op Sample.externals Sample.codec st
           (mkH3 (C := Sample.codec) (mkMockQuic [] [])
              [(0, StreamObj (Sample.finished_stream 0))] tt)
           0 H3_REQUEST_CANCELLED 8 8).
  - reflexivity.
  - reflexivity.
  - right; right. exists (Sample.finished_stream 0). split; reflexivity.
Defined.

(** C7 at body data for a stream whose trailers are sent. *)
Lemma C7_witness :
  let st :=
    Sample.ready Http3Server [(0, StreamObj (Sample.finished_stream 0))] []
      ∅ ∅ in
  handle_event Sample.externals Sample.codec 8 8
    (HttpEv (ResponseData 0 "late")) st
  = ([], st, Returned tt).
Proof.
  intros st.
  apply (proj1
    (C7_rejected_send_is_swallowed Sample.externals Sample.codec st
       (mkH3 (C := Sample.codec) (mkMockQuic [] [])
          [(0, StreamObj (Sample.finished_stream 0))] tt)
       (ResponseData 0 "late") 0 8 8
       eq_refl eq_refl eq_refl (fun data end_stream => eq_refl))).
Defined.

(** C6 at the error of the spec's scenario: code 502 on a stream on
    which no response has been sent. *)
Lemma C6_witness :
  let st :=
    Sample.ready Http3Server [(0, StreamObj (Sample.open_stream 0))] [] ∅ ∅ in
  server_error_status 502 = 500
  /\ emitted (handle_event Sample.externals Sample.codec 8 8
                (HttpEv (ResponseProtocolError 0 "bad gateway" 502)) st)
     = [ SendQuicStreamData 0
           "HEADERS :status: 500, server: mitmproxy, content-type: text/html"
           false;
         SendQuicStreamData 0 "DATA 500 bad gateway" true ].
Proof.
  intros st.
  exact (C6_server_protocol_error_reply Sample.externals Sample.codec st
           (mkH3 (C := Sample.codec) (mkMockQuic [] [])
              [(0, StreamObj (Sample.open_stream 0))] tt)
           0 502 8 8 "bad gateway"
           eq_refl eq_refl eq_refl eq_refl eq_refl).
Defined.

(** A request header block that parses and ends the stream, and one the
    parser rejects. *)
Lemma header_block_examples :
  let st :=
    Sample.ready Http3Server [(0, StreamObj (Sample.open_stream 0))] [] ∅ ∅ in
  (on_h3_event Sample.externals Sample.codec
     (HeadersReceived [(":method", "GET")] 0 true) st
   = ([ Log "h3_event=H3Event" "info";
        ReceiveHttp
          (RequestHeaders 0
             (mkRequest "example.com" 443 "GET" "https" "example.com" "/"
                "HTTP/3" [] None None 0 None)
             true);
        ReceiveHttp (RequestEndOfMessage 0) ],
      st, Returned tt)
   /\ is_headers_report 0
        (ReceiveHttp
           (RequestHeaders 0
              (mkRequest "example.com" 443 "GET" "https" "example.com" "/"
                 "HTTP/3" [] None None 0 None)
              true))
      = true)
  /\ on_h3_event Sample.externals Sample.codec
       (HeadersReceived [("x", "y")] 0 false) st
     = ([ Log "h3_event=H3Event" "info"; CloseConnection ],
        set_conn
          (mkConnection
             (Some (mkConnectionTerminated H3_GENERAL_PROTOCOL_ERROR None
                      "Invalid HTTP/3 request headers: Required pseudo header is missing: :method")))
          st,
        Returned tt).
Proof.
  intros st. split.
  - exact (header_block_is_parsed_or_closes_the_connection
             Sample.externals Sample.codec st
             (mkH3 (C := Sample.codec) (mkMockQuic [] [])
                [(0, StreamObj (Sample.open_stream 0))] tt)
             [(":method", "GET")] 0 0 true (Sample.open_stream 0)
             eq_refl eq_refl eq_refl ltac:(discriminate) eq_refl).
  - exact (header_block_is_parsed_or_closes_the_connection
             Sample.externals Sample.codec st
             (mkH3 (C := Sample.codec) (mkMockQuic [] [])
                [(0, StreamObj (Sample.open_stream 0))] tt)
             [("x", "y")] 0 0 false (Sample.open_stream 0)
             eq_refl eq_refl eq_refl ltac:(discriminate) eq_refl).
Defined.

(** C9 at the first outgoing event of a client: logical id 1 gets
    transport id 0. *)
Lemma C9_witness :
  let st := Sample.ready Http3Client [] [] ∅ ∅ in
  let st' :=
    final_state (handle_event Sample.externals Sample.codec 0 8
                   (HttpEv (RequestData 1 "x")) st) in
  (_event_to_quic st' !! 1 = Some 0 /\ _quic_to_event st' !! 0 = Some 1)
  /\ id_maps_inverse st'
  /\ _event_to_quic st ⊆ _event_to_quic st'
  /\ _quic_to_event st ⊆ _quic_to_event st'
  /\ (forall event,
        _quic_to_event st' !! event_stream_id event = None ->
        Http3Client_postprocess_outgoing_event Sample.codec event st'
        = ([], st', Raised KeyError)).
Proof.
  intros st st'. split.
  - split; reflexivity.
  - apply (C9_id_maps_stay_inverse Sample.externals Sample.codec st
             (HttpEv (RequestData 1 "x")) 0 8).
    + intros l t. simpl. rewrite !lookup_empty. split; discriminate.
    + reflexivity.
Defined.

(** C1 at a request on stream 4 that arrives while stream 0 is open. *)
Lemma C1_witness :
  let st :=
    Sample.ready Http3Server [(0, StreamObj (Sample.open_stream 0))] [] ∅ ∅ in
  let o1 :=
    handle_event Sample.externals Sample.codec 8 8
      (QuicStreamDataReceived 4 "GET" false) st in
  let o2 :=
    handle_event Sample.externals Sample.codec 8 8
      (QuicStreamReset 0 H3_REQUEST_CANCELLED) (final_state o1) in
  let o3 :=
    handle_event Sample.externals Sample.codec 8 8 ConnectionClosed
      (final_state o2) in
  count_commands (is_headers_report 4) (emitted o1) = 1%nat
  /\ count_commands (is_terminal_report 4)
       (emitted o1 ++ emitted o2 ++ emitted o3)
     = 0%nat
  /\ completion o3 = Raised AttributeError
  /\ _handle_event (final_state o3) = state_ready_h
  /\ handle_event Sample.externals Sample.codec 8 8 ConnectionClosed
       (final_state o3)
     = ([], final_state o3, Raised AttributeError).
Proof.
  intros st.
  exact (C1_reset_then_closure_starves_a_started_stream Sample.externals
           Sample.codec st
           (Sample.ready_h3 [(0, StreamObj (Sample.open_stream 0))] [])
           "GET" [(":method", "GET")] (Sample.open_stream 0)
           (mkH3Stream false AFTER_HEADERS INITIAL 4)
           (RequestHeaders 4 Sample.sample_request false)
           H3_REQUEST_CANCELLED 8 8
           eq_refl eq_refl eq_refl eq_refl eq_refl eq_refl eq_refl eq_refl
           ltac:(discriminate) eq_refl).
Defined.

(** C6 fails on a response that has begun.  The headers of stream 0 are
    sent when the error comes.  The codec takes the header block of the
    error reply, as the trailers of the response, and rejects the body;
    the rejection is swallowed and the turn yields nothing.  The next
    accepted event, data for stream 4, flushes the queue: the block with
    status 500 goes out on stream 0 without end of stream, and the error
    body is never sent. *)
Lemma C6_counterexample :
  let st :=
    Sample.ready Http3Server
      [(0, StreamObj (Sample.sending_stream 0));
       (4, StreamObj (Sample.sending_stream 4))] [] ∅ ∅ in
  let o1 :=
    handle_event Sample.externals Sample.codec 8 8
      (HttpEv (ResponseProtocolError 0 "bad gateway" 502)) st in
  let o2 :=
    handle_event Sample.externals Sample.codec 8 8
      (HttpEv (ResponseData 4 "next")) (final_state o1) in
  emitted o1 = []
  /\ completion o1 = Returned tt
  /\ emitted o2
     = [ SendQuicStreamData 0
           "HEADERS :status: 500, server: mitmproxy, content-type: text/html"
           false;
         SendQuicStreamData 4 "DATA next" false ]
  /\ ~ In (SendQuicStreamData 0 "DATA 500 bad gateway" true)
          (emitted o1 ++ emitted o2)
  /\ forall data, ~ In (SendQuicStreamData 0 data true)
                       (emitted o1 ++ emitted o2).
Proof.
  simpl. repeat split; try reflexivity.
  - vm_compute. intros H. intuition discriminate.
  - intros data. vm_compute. intros H. intuition discriminate.
Qed.

(** C8 at a request whose header block and trailers come in one chunk. *)
Lemma C8_witness :
  let st := Sample.burst_ready Http3Server [] in
  let o :=
    handle_event Sample.externals Sample.burst_codec 8 8
      (QuicStreamDataReceived 0 "GET|checksum" true) st in
  o = ([ Log "recvd data: event=Event" "info";
         Log "h3_event=H3Event" "info";
         ReceiveHttp (RequestTrailers 0 [(":method", "GET")]);
         Log "h3_event=H3Event" "info";
         ReceiveHttp (RequestTrailers 0 [("trailer", "checksum")]);
         ReceiveHttp (RequestEndOfMessage 0) ],
       Sample.burst_ready Http3Server
         [(0, StreamObj (mkH3Stream true AFTER_TRAILERS INITIAL 0))],
       Returned tt)
  /\ count_commands (is_headers_report 0) (emitted o) = 0%nat
  /\ ~ In CloseConnection (emitted o).
Proof.
  intros st.
  exact (C8_headers_decoded_with_trailers_are_not_parsed Sample.externals
           Sample.burst_codec st
           (mkH3 (C := Sample.burst_codec) (mkMockQuic [] []) [] tt)
           0 0 8 8 "GET|checksum" [(":method", "GET")]
           [("trailer", "checksum")]
           (mkH3Stream true AFTER_TRAILERS INITIAL 0)
           eq_refl eq_refl eq_refl eq_refl eq_refl eq_refl eq_refl).
Defined.

(** ** The further properties on concrete input *)

Lemma X4_witness :
  let st :=
    set_handler state_done_h
      (Sample.ready Http3Server [(0, StreamObj (Sample.open_stream 0))] []
         ∅ ∅) in
  deliver Sample.externals Sample.codec Sample.after_closure st
  = ([], st, Returned tt).
Proof.
  intros st.
  apply (X4_done_absorbs_every_event Sample.externals Sample.codec
           Sample.after_closure st).
  - reflexivity.
  - repeat constructor; discriminate.
Defined.

Lemma X6_witness :
  Forall is_local_command
    (emitted
       (handle_event Sample.externals Sample.codec 8 8
          (QuicStreamDataReceived 0 "body" true)
          (Sample.ready Http3Server [(0, StreamObj (Sample.open_stream 0))]
             [] ∅ ∅))).
Proof.
  apply (X6_transport_events_touch_no_stream Sample.externals Sample.codec).
  exact I.
Defined.

Lemma X7_witness :
  let st :=
    Sample.ready Http3Server [(0, StreamObj (Sample.open_stream 0))] [] ∅ ∅ in
  on_h3_event Sample.externals Sample.codec (DataReceived "body" 0 true) st
  = ([ Log "h3_event=H3Event" "info";
       ReceiveHttp (RequestData 0 "body");
       ReceiveHttp (RequestEndOfMessage 0) ],
     st, Returned tt).
Proof.
  intros st.
  exact (X7_data_is_reported_then_end_of_message Sample.externals
           Sample.codec st "body" 0 0 true eq_refl eq_refl).
Defined.

Lemma X8_witness :
  let st :=
    Sample.ready Http3Server [(0, StreamObj (Sample.trailing_stream 0))] []
      ∅ ∅ in
  on_h3_event Sample.externals Sample.codec
    (HeadersReceived [("x", "y")] 0 true) st
  = ([ Log "h3_event=H3Event" "info";
       ReceiveHttp (RequestTrailers 0 [("x", "y")]);
       ReceiveHttp (RequestEndOfMessage 0) ],
     st, Returned tt).
Proof.
  intros st.
  exact (X8_trailers_are_reported_unparsed Sample.externals Sample.codec st
           (Sample.ready_h3 [(0, StreamObj (Sample.trailing_stream 0))] [])
           [("x", "y")] 0 0 true (Sample.trailing_stream 0)
           eq_refl eq_refl eq_refl eq_refl eq_refl).
Defined.

Lemma X9_witness :
  let st := Sample.ready Http3Server [] [] ∅ ∅ in
  on_h3_event Sample.externals Sample.codec (DataReceived "push" 3 false) st
  = ([ Log "h3_event=H3Event" "info";
       Log "Ignored unsupported H3 event: H3Event" "debug" ],
     st, Returned tt).
Proof.
  intros st.
  exact (X9_untranslated_events_are_only_noted Sample.externals Sample.codec
           st (DataReceived "push" 3 false) eq_refl).
Defined.

Lemma X10_witness :
  let st :=
    Sample.ready Http3Client [(0, StreamObj (Sample.open_stream 0))] [] ∅ ∅ in
  handle_event Sample.externals Sample.codec 8 8
    (QuicStreamReset 0 H3_REQUEST_CANCELLED) st
  = ([], Sample.ready Http3Client [(0, BoolObj true)] [] ∅ ∅, Raised KeyError).
Proof.
  intros st.
  exact (X10_reset_of_unmapped_stream_raises_after_the_overwrite
           Sample.externals Sample.codec st
           (Sample.ready_h3 [(0, StreamObj (Sample.open_stream 0))] [])
           0 H3_REQUEST_CANCELLED 8 8 (Sample.open_stream 0)
           eq_refl eq_refl eq_refl eq_refl eq_refl eq_refl eq_refl).
Defined.

Lemma X11_witness :
  let st :=
    Sample.ready Http3Server
      [(0, StreamObj (Sample.open_stream 0));
       (4, StreamObj (Sample.open_stream 4))]
      [CloseConnection] ∅ ∅ in
  let st' :=
    final_state
      (handle_event Sample.externals Sample.codec 8 8
         (QuicStreamReset 4 H3_INTERNAL_ERROR) st) in
  match h3_conn st' with
  | Some h3' =>
      dict_get (_stream h3') 4 = Some (BoolObj true)
      /\ (forall j, j <> 4 ->
            dict_get (_stream h3') j
            = dict_get [(0, StreamObj (Sample.open_stream 0));
                        (4, StreamObj (Sample.open_stream 4))] j)
      /\ map fst (_stream h3') = [0; 4]
      /\ _quic h3' = mkMockQuic [CloseConnection] []
      /\ codec_state h3' = tt
  | None => False
  end
  /\ conn st' = conn st
  /\ maps_of st' = maps_of st
  /\ _handle_event st' = state_ready_h.
Proof.
  intros st.
  exact (X11_reset_changes_one_table_entry_only Sample.externals Sample.codec
           st
           (Sample.ready_h3
              [(0, StreamObj (Sample.open_stream 0));
               (4, StreamObj (Sample.open_stream 4))]
              [CloseConnection])
           4 H3_INTERNAL_ERROR 4 8 8 (Sample.open_stream 4)
           eq_refl eq_refl eq_refl eq_refl eq_refl eq_refl).
Defined.

Lemma X12_witness :
  let st := Sample.ready Http3Client [] [] ∅ ∅ in
  let o :=
    preprocess_incoming_event Sample.codec 0 (RequestData 1 "x") st in
  completion o = Returned (RequestData 0 "x")
  /\ postprocess_outgoing_event Sample.codec (RequestData 0 "x")
       (final_state o)
     = ([], final_state o, Returned (RequestData 1 "x")).
Proof.
  intros st o. split; [reflexivity|].
  assert (Hinv : id_maps_inverse st).
  { intros l t. simpl. rewrite !lookup_empty. split; discriminate. }
  exact (X12_postprocess_undoes_preprocess Sample.codec st
           (RequestData 1 "x") 0 Hinv).
Defined.

Lemma X13_witness :
  let st := Sample.ready Http3Client [] [] ∅ ∅ in
  let st1 :=
    final_state
      (preprocess_incoming_event Sample.codec 0
         (RequestHeaders 1 Sample.sample_request false) st) in
  preprocess_incoming_event Sample.codec 0
    (RequestHeaders 1 Sample.sample_request false) st
  = ([OpenQuicStream false], st1,
     Returned (RequestHeaders 0 Sample.sample_request false))
  /\ preprocess_incoming_event Sample.codec 4 (RequestData 1 "x") st1
     = ([], st1, Returned (RequestData 0 "x")).
Proof.
  intros st st1.
  exact (X13_a_logical_id_keeps_its_transport_id Sample.codec st
           (RequestHeaders 1 Sample.sample_request false)
           (RequestData 1 "x") 0 4 eq_refl eq_refl eq_refl).
Defined.

Lemma X14_witness :
  let st :=
    Sample.ready Http3Server [(0, StreamObj (Sample.sending_stream 0))]
      [SendQuicStreamData 4 "DATA earlier" false] ∅ ∅ in
  let o :=
    handle_event Sample.externals Sample.codec 8 8
      (HttpEv (ResponseData 0 "body")) st in
  emitted o
  = [ SendQuicStreamData 4 "DATA earlier" false;
      SendQuicStreamData 0 "DATA body" false ]
  /\ completion o = Blocked
  /\ h3_conn (final_state o)
     = Some (Sample.ready_h3 [(0, StreamObj (Sample.sending_stream 0))] []).
Proof.
  intros st o.
  exact (X14_accepted_send_flushes_the_whole_queue Sample.externals
           Sample.codec st
           (Sample.ready_h3 [(0, StreamObj (Sample.sending_stream 0))]
              [SendQuicStreamData 4 "DATA earlier" false])
           (ResponseData 0 "body") 0 8 8 _
           eq_refl eq_refl eq_refl eq_refl eq_refl eq_refl).
Defined.

Lemma X15_witness :
  let st :=
    Sample.ready Http3Server [(0, StreamObj (Sample.open_stream 0))] [] ∅ ∅ in
  let o :=
    handle_event Sample.externals Sample.codec 8 8
      (HttpEv (ResponseHeaders 0 Sample.sample_response true)) st in
  emitted o = [SendQuicStreamData 0 "HEADERS :status: 204" true]
  /\ completion o = Blocked
  /\ h3_conn (final_state o)
     = Some (Sample.ready_h3
               [(0, StreamObj (mkH3Stream false AFTER_HEADERS AFTER_TRAILERS 0))]
               [])
  /\ dict_get
       [(0, StreamObj (mkH3Stream false AFTER_HEADERS AFTER_TRAILERS 0))] 0
     = Some (StreamObj (mkH3Stream false AFTER_HEADERS AFTER_TRAILERS 0)).
Proof.
  intros st o.
  exact (X15_headers_with_end_of_stream_finish_the_send_side
           Sample.externals Sample.codec st
           (Sample.ready_h3 [(0, StreamObj (Sample.open_stream 0))] [])
           (ResponseHeaders 0 Sample.sample_response true) 0 8 8 _
           (Sample.sending_stream 0)
           eq_refl eq_refl eq_refl eq_refl eq_refl eq_refl eq_refl).
Defined.

Lemma X16_witness :
  let st :=
    Sample.ready Http3Server [(0, StreamObj (Sample.sending_stream 0))] []
      ∅ ∅ in
  let o :=
    handle_event Sample.externals Sample.codec 8 8
      (HttpEv (ResponseProtocolError 0 "bad gateway" 502)) st in
  emitted o = []
  /\ completion o = Returned tt
  /\ h3_conn (final_state o)
     = Some (Sample.ready_h3
               [(0, StreamObj (mkH3Stream false AFTER_HEADERS AFTER_TRAILERS 0))]
               [SendQuicStreamData 0
                  "HEADERS :status: 500, server: mitmproxy, content-type: text/html"
                  false]).
Proof.
  intros st o.
  exact (X16_half_sent_error_reply_stays_queued Sample.externals Sample.codec
           st (Sample.ready_h3 [(0, StreamObj (Sample.sending_stream 0))] [])
           0 502 8 8 "bad gateway"
           eq_refl eq_refl eq_refl eq_refl eq_refl).
Defined.

Lemma X17_witness :
  let st :=
    Sample.ready Http3Server
      [(0, StreamObj (Sample.open_stream 0));
       (3, StreamObj (Sample.open_stream 3));
       (4, StreamObj (Sample.finished_stream 4));
       (8, StreamObj (Sample.open_stream 8))]
      [] ∅ ∅ in
  let o :=
    handle_event Sample.externals Sample.codec 8 8 ConnectionClosed st in
  o = ([ ReceiveHttp (RequestProtocolError 0 "Connection closed." 12);
         ReceiveHttp (RequestProtocolError 8 "Connection closed." 12) ],
       set_handler state_done_h st, Returned tt)
  /\ length (emitted o) = 2%nat.
Proof.
  intros st o.
  exact (X17_closure_reports_each_open_stream_once Sample.externals
           Sample.codec st
           (Sample.ready_h3
              [(0, StreamObj (Sample.open_stream 0));
               (3, StreamObj (Sample.open_stream 3));
               (4, StreamObj (Sample.finished_stream 4));
               (8, StreamObj (Sample.open_stream 8))] [])
           [Sample.open_stream 0; Sample.open_stream 3;
            Sample.finished_stream 4; Sample.open_stream 8]
           8 8 eq_refl eq_refl eq_refl
           ltac:(repeat constructor; intros _; eexists; reflexivity)).
Defined.

Lemma X18_witness :
  let st :=
    Sample.ready Http3Server
      [(0, StreamObj (Sample.open_stream 0));
       (4, StreamObj (Sample.open_stream 4))]
      [] ∅ ∅ in
  deliver Sample.externals Sample.codec
    ((ConnectionClosed, (8, 8)) :: Sample.after_closure) st
  = ([ ReceiveHttp (RequestProtocolError 0 "Connection closed." 12);
       ReceiveHttp (RequestProtocolError 4 "Connection closed." 12) ],
     set_handler state_done_h st, Returned tt).
Proof.
  intros st.
  exact (X18_closure_is_reported_once Sample.externals Sample.codec st
           (Sample.ready_h3
              [(0, StreamObj (Sample.open_stream 0));
               (4, StreamObj (Sample.open_stream 4))] [])
           [Sample.open_stream 0; Sample.open_stream 4]
           8 8 Sample.after_closure eq_refl eq_refl eq_refl
           ltac:(repeat constructor; intros _; eexists; reflexivity)
           ltac:(repeat constructor; discriminate)).
Defined.

Lemma X19_witness :
  let st :=
    Sample.ready Http3Server
      [(0, StreamObj (Sample.open_stream 0));
       (4, StreamObj (Sample.open_stream 4))]
      [] ∅ ∅ in
  let st1 :=
    final_state
      (on_h3_event Sample.externals Sample.codec
         (HeadersReceived [("x", "y")] 4 false) st) in
  handle_event Sample.externals Sample.codec 8 8 ConnectionClosed st1
  = ([ ReceiveHttp
         (RequestProtocolError 0
            "Invalid HTTP/3 request headers: Required pseudo header is missing: :method"
            H3_GENERAL_PROTOCOL_ERROR);
       ReceiveHttp
         (RequestProtocolError 4
            "Invalid HTTP/3 request headers: Required pseudo header is missing: :method"
            H3_GENERAL_PROTOCOL_ERROR) ],
     set_handler state_done_h st1, Returned tt).
Proof.
  intros st st1.
  exact (X19_rejected_headers_name_the_closure_error Sample.externals
           Sample.codec st
           (Sample.ready_h3
              [(0, StreamObj (Sample.open_stream 0));
               (4, StreamObj (Sample.open_stream 4))] [])
           [Sample.open_stream 0; Sample.open_stream 4]
           [("x", "y")] 4 8 8 (Sample.open_stream 4)
           "Required pseudo header is missing: :method"
           eq_refl eq_refl eq_refl
           ltac:(repeat constructor; intros _; eexists; reflexivity)
           eq_refl eq_refl ltac:(discriminate) eq_refl).
Defined.

Lemma X20_witness :
  let st :=
    Sample.ready Http3Server [(0, StreamObj (Sample.open_stream 0))] [] ∅ ∅ in
  handle_event Sample.externals Sample.codec 8 8
    (HttpEv (RequestProtocolError 0 "cancel" H3_REQUEST_CANCELLED)) st
  = ([], st, Raised AssertionError).
Proof.
  intros st.
  exact (X20_server_refuses_request_side_errors Sample.externals Sample.codec
           st (Sample.ready_h3 [(0, StreamObj (Sample.open_stream 0))] [])
           0 H3_REQUEST_CANCELLED 8 8 "cancel" eq_refl eq_refl eq_refl).
Defined.

Lemma X21_witness :
  let st :=
    Sample.ready Http3Server [(0, StreamObj (Sample.open_stream 0))]
      [SendQuicStreamData 4 "DATA earlier" false] ∅ ∅ in
  h3_conn
    (final_state
       (handle_event Sample.externals Sample.codec 8 8
          (QuicStreamDataReceived 0 "body" true) st))
  = Some (Sample.ready_h3
            [(0, StreamObj (mkH3Stream true AFTER_HEADERS INITIAL 0))]
            [SendQuicStreamData 4 "DATA earlier" false]).
Proof.
  intros st.
  exact (X21_received_data_leaves_the_queue_unsent Sample.externals
           Sample.codec st
           (Sample.ready_h3 [(0, StreamObj (Sample.open_stream 0))]
              [SendQuicStreamData 4 "DATA earlier" false])
           0 8 8 "body" true eq_refl eq_refl).
Defined.
